(** * Deepfake detector: response normalisation, frame sampling, aggregation

  A shallow embedding of [analyze/image_analyzer.py],
  [analyze/video_analyzer.py], [utils/media_io.py] and [utils/detect.py].

  Python dictionaries are finite maps from string keys to Python values,
  texts are ASCII strings, and everything the program reaches outside
  itself (the file system, PIL, OpenCV, the [json] module and the remote
  model) is an oracle collected in the record [env]; the effects the
  program has on the outside are recorded in the record [world]. *)

From Stdlib Require Import ZArith QArith Qround Ascii.
From stdpp Require Import gmap strings list fin_maps pretty.

Set Warnings "-register-all".

Open Scope Z_scope.

(** ** Python string methods *)

Module PyStr.

(** [c.lower()] on an ASCII character. *)
Definition chr_lower (c : ascii) : ascii :=
  let n := nat_of_ascii c in
  if ((65 <=? n)%nat && (n <=? 90)%nat)%bool then ascii_of_nat (n + 32) else c.

(** [s.lower()]. *)
Fixpoint lower (s : string) : string :=
  match s with
  | EmptyString => EmptyString
  | String c s' => String (chr_lower c) (lower s')
  end.

(** [s.find(c)] for a one-character [c]: first index, or [-1]. *)
Fixpoint find (c : ascii) (s : string) : Z :=
  match s with
  | EmptyString => -1
  | String a s' =>
      if Ascii.eqb a c then 0
      else let r := find c s' in if r =? -1 then -1 else r + 1
  end.

(** [s.rfind(c)] for a one-character [c]: last index, or [-1]. *)
Fixpoint rfind (c : ascii) (s : string) : Z :=
  match s with
  | EmptyString => -1
  | String a s' =>
      let r := rfind c s' in
      if negb (r =? -1) then r + 1
      else if Ascii.eqb a c then 0 else -1
  end.

(** [s[i:j]] for [0 <= i]. *)
Definition slice (s : string) (i j : Z) : string :=
  String.substring (Z.to_nat i) (Z.to_nat (j - i)) s.

(** [needle in hay]. *)
Fixpoint contains (needle hay : string) : bool :=
  String.prefix needle hay ||
  match hay with
  | EmptyString => false
  | String _ hay' => contains needle hay'
  end.

(** [s.split(sep)] for a one-character separator. *)
Fixpoint split (sep : ascii) (s : string) : list string :=
  match s with
  | EmptyString => [EmptyString]
  | String c s' =>
      if Ascii.eqb c sep then EmptyString :: split sep s'
      else match split sep s' with
           | h :: t => String c h :: t
           | [] => [String c EmptyString]
           end
  end.

(** The ASCII characters [str.strip()] removes. *)
Definition is_space (c : ascii) : bool :=
  let n := nat_of_ascii c in
  ((9 <=? n)%nat && (n <=? 13)%nat) || ((28 <=? n)%nat && (n <=? 32)%nat).

Fixpoint lstrip (s : string) : string :=
  match s with
  | EmptyString => EmptyString
  | String c s' => if is_space c then lstrip s' else s
  end.

Fixpoint rstrip (s : string) : string :=
  match s with
  | EmptyString => EmptyString
  | String c s' =>
      match rstrip s' with
      | EmptyString => if is_space c then EmptyString else String c EmptyString
      | r => String c r
      end
  end.

(** [s.strip()]. *)
Definition strip (s : string) : string := rstrip (lstrip s).

(** [any(k in text for k in keywords)]. *)
Definition any_in (keywords : list string) (text : string) : bool :=
  existsb (fun k => contains k text) keywords.

End PyStr.

(** ** Python values and result dictionaries *)

(** The values a result dictionary holds: what [json.loads] can produce and
  what the analyzers build themselves.  A Python [float] is kept as the
  exact rational it stands for; binary64 rounding is not modelled. *)
Inductive pyval : Type :=
| PNone
| PBool (b : bool)
| PInt (z : Z)
| PFloat (q : Q)
| PStr (s : string)
| PList (l : list pyval)
| PDict (d : gmap string pyval).

(** [type(v).__name__], as it appears in Python's error messages. *)
Definition type_name (v : pyval) : string :=
match v with
| PNone => "NoneType"
| PBool _ => "bool"
| PInt _ => "int"
| PFloat _ => "float"
| PStr _ => "str"
| PList _ => "list"
| PDict _ => "dict"
end.

(** [d.setdefault(k, v)]: the key is written only when it is absent. *)
Definition setdefault (k : string) (v : pyval) (d : gmap string pyval)
: gmap string pyval :=
match d !! k with
| Some _ => d
| None => <[k := v]> d
end.

(** A call either returns or raises an exception carrying [str(e)]. *)
Inductive outcome (A : Type) : Type :=
| Returned (a : A)
| Raised (msg : string).
Arguments Returned {A} a.
Arguments Raised {A} msg.

(** ** The outside world *)

(** The three prompts the analyzers send; the numbers are the values the
  f-strings interpolate. *)
Inductive prompt : Type :=
| ImagePrompt
| FramePrompt (frame_no total : Z)
| OverallPrompt (suspicious_count total : Z).

(** The argument of [generate_content]: a prompt and at most one image,
  named by the path it was opened from. *)
Record request : Type := Request { rq_prompt : prompt; rq_image : option string }.

(** What [cv2.VideoCapture(path)] gives: whether the stream is open, the
  frame count it reports, and how many reads succeed before [ret] turns
  false. *)
Record capture : Type := Capture {
cap_isOpened : bool;
cap_frame_count : Z;
cap_readable : nat
}.

Record env : Type := Env {
(** [json.loads]: [None] stands for [json.JSONDecodeError]. *)
json_loads : string -> option pyval;
os_path_exists : string -> bool;
(** [Image.open(path)] and [img.verify()]. *)
Image_open : string -> outcome unit;
Image_verify : string -> outcome unit;
VideoCapture : string -> outcome capture;
(** name of the n-th file made by [tempfile.NamedTemporaryFile] *)
NamedTemporaryFile : nat -> string;
(** reply ([response.text]) to the n-th remote call of the run *)
generate_content : nat -> request -> outcome string
}.

Record world : Type := World {
(** temporary frame files present on disk *)
files : gset string;
(** number of temporary files created so far *)
tmp_created : nat;
(** the [cv2.imwrite(name, frame)] calls: file name and the running
    counter of the frame that was written, oldest first *)
imwrites : list (string * Z);
(** the remote calls made, oldest first *)
calls : list request
}.

(** [self.model.generate_content(rq)] followed by [response.text]. *)
Definition generate (e : env) (rq : request) (w : world) : outcome string * world :=
(generate_content e (length (calls w)) rq,
 World (files w) (tmp_created w) (imwrites w) (calls w ++ [rq])).

(** [os.unlink(path)]. *)
Definition os_unlink (path : string) (w : world) : outcome unit * world :=
if decide (path ∈ files w)
then (Returned tt, World (files w ∖ {[path]}) (tmp_created w) (imwrites w) (calls w))
else (Raised ("[Errno 2] No such file or directory: '" +:+ path +:+ "'"), w).

(** ** analyze/image_analyzer.py *)

Module ImageAnalyzer.

Definition DEEPFAKE_KEYWORDS : list string :=
  ["deepfake"; "ai-generated"; "artificial"; "synthetic"; "fake"; "manipulated"].
Definition LIKELY_WORDS : list string := ["likely"; "probably"; "appears"].
Definition DEFINITELY_WORDS : list string := ["definitely"; "clearly"; "obvious"].
Definition POSSIBLY_WORDS : list string := ["possibly"; "might"; "could"].
Definition INDICATOR_KEYWORDS : list string :=
  ["inconsistent"; "unnatural"; "artifact"; "blurr"; "warp"; "irregular"].

(** The local [confidence] of [_parse_text_response]: three checks in
    source order, each one reassigning the variable. *)
Definition estimate_confidence (text : string) : Z :=
  let confidence := 0 in
  let confidence :=
    if PyStr.any_in LIKELY_WORDS (PyStr.lower text) then 65 else confidence in
  let confidence :=
    if PyStr.any_in DEFINITELY_WORDS (PyStr.lower text) then 85 else confidence in
  let confidence :=
    if PyStr.any_in POSSIBLY_WORDS (PyStr.lower text) then 40 else confidence in
  confidence.

(** The loop that collects the indicator sentences. *)
Definition extract_indicators (keywords : list string) (text : string) : list string :=
  PyStr.strip <$>
    filter (fun sentence => PyStr.any_in keywords (PyStr.lower sentence) = true)
           (PyStr.split "." text).

Definition _parse_text_response (text : string) : gmap string pyval :=
  let is_deepfake := PyStr.any_in DEEPFAKE_KEYWORDS (PyStr.lower text) in
  let confidence := estimate_confidence text in
  let indicators := extract_indicators INDICATOR_KEYWORDS text in
  <["is_deepfake" := PBool is_deepfake]>
  (<["confidence_score" := PInt (if is_deepfake then confidence else 100 - confidence)]>
  (<["analysis" := PStr text]>
  (<["indicators" := PList (PStr <$> take 5 indicators)]>
  (<["suspicious_areas" := PList []]> ∅)))).

(** The inner [try] of [analyze]: the span from the first [{] to the last
    [}] is given to [json.loads]; without such a span, or when the span
    does not parse, the text is read heuristically. *)
Definition extract_result (e : env) (result_text : string) : pyval :=
  let json_start := PyStr.find "{" result_text in
  let json_end := PyStr.rfind "}" result_text + 1 in
  if negb (json_start =? -1) && (json_end >? json_start) then
    let json_str := PyStr.slice result_text json_start json_end in
    match json_loads e json_str with
    | Some result => result
    | None => PDict (_parse_text_response result_text)
    end
  else PDict (_parse_text_response result_text).

(** The five [setdefault] calls; on anything but a dictionary the first
    of them raises [AttributeError]. *)
Definition ensure_fields (result_text : string) (result : pyval)
  : outcome (gmap string pyval) :=
  match result with
  | PDict d =>
      Returned
        (setdefault "suspicious_areas" (PList [])
        (setdefault "indicators" (PList [])
        (setdefault "analysis" (PStr result_text)
        (setdefault "confidence_score" (PInt 0)
        (setdefault "is_deepfake" (PBool false) d)))))
  | v => Raised ("'" +:+ type_name v +:+ "' object has no attribute 'setdefault'")
  end.

(** The dictionary of the outer [except Exception as e]. *)
Definition error_result (msg : string) : gmap string pyval :=
  <["is_deepfake" := PBool false]>
  (<["confidence_score" := PInt 0]>
  (<["analysis" := PStr ("Error during analysis: " +:+ msg)]>
  (<["indicators" := PList []]>
  (<["suspicious_areas" := PList []]>
  (<["error" := PStr msg]> ∅))))).

Definition analyze (e : env) (image_path : string) (w : world)
  : gmap string pyval * world :=
  match Image_open e image_path with
  | Raised msg => (error_result msg, w)
  | Returned _ =>
      let '(response, w1) := generate e (Request ImagePrompt (Some image_path)) w in
      match response with
      | Raised msg => (error_result msg, w1)
      | Returned result_text =>
          match ensure_fields result_text (extract_result e result_text) with
          | Returned result => (result, w1)
          | Raised msg => (error_result msg, w1)
          end
      end
  end.

End ImageAnalyzer.

(** ** analyze/video_analyzer.py *)

Module VideoAnalyzer.

Definition FRAME_KEYWORDS : list string :=
  ["suspicious"; "fake"; "manipulated"; "artificial"; "unnatural"].
Definition DEEPFAKE_KEYWORDS : list string :=
  ["deepfake"; "fake"; "manipulated"; "ai-generated"].
Definition INDICATOR_KEYWORDS : list string :=
  ["inconsistent"; "unnatural"; "artifact"; "manipulation"; "suspicious"].

(** *** Frame sampling *)

(** The [while] loop of [_extract_frames].  [remaining] is the number of
    reads that still succeed; a read past the end gives [ret = False] and
    leaves the loop. *)
Fixpoint read_loop (e : env) (interval max_frames : Z) (isOpened : bool)
    (remaining : nat) (frame_count extracted : Z)
    (frames : list string) (w : world) : list string * world :=
  if (extracted <? max_frames) && isOpened then
    match remaining with
    | O => (frames, w)
    | S remaining' =>
        if frame_count mod interval =? 0 then
          let name := NamedTemporaryFile e (tmp_created w) in
          read_loop e interval max_frames isOpened remaining'
            (frame_count + 1) (extracted + 1) (frames ++ [name])
            (World (files w ∪ {[name]}) (S (tmp_created w))
                   (imwrites w ++ [(name, frame_count)]) (calls w))
        else
          read_loop e interval max_frames isOpened remaining'
            (frame_count + 1) extracted frames w
    end
  else (frames, w).

(** [_extract_frames].  The [except] clause prints and falls through to
    [return frames]; it is reached when [cv2.VideoCapture] raises and on
    the [ZeroDivisionError] of [total_frames // 0], both before any frame
    was taken.  Creating a temporary file and writing a frame to it are
    taken to succeed. *)
Definition _extract_frames (e : env) (video_path : string) (max_frames : Z)
    (w : world) : list string * world :=
  match VideoCapture e video_path with
  | Raised _ => ([], w)
  | Returned cap =>
      let total_frames := cap_frame_count cap in
      if total_frames =? 0 then ([], w)
      else if max_frames =? 0 then ([], w)
      else
        let interval := Z.max 1 (total_frames / max_frames) in
        read_loop e interval max_frames (cap_isOpened cap) (cap_readable cap)
                  0 0 [] w
  end.

(** *** Heuristic reading of the overall reply *)

(** The arithmetic below is Python's float arithmetic carried out on exact
    rationals.  For frame counts below 10^15 the comparisons with 0.3 come
    out as in binary64; [int(ratio * 100)] can be one less in binary64 where
    the rounded product falls just under an integer (0.29 * 100), which no
    bound proved here depends on. *)

(** [int(x)] on a float: truncation towards zero. *)
Definition py_int (x : Q) : Z := Z.quot (Qnum x) (Zpos (Qden x)).

(** [a < b] on floats. *)
Definition Qltb (a b : Q) : bool := negb (Qle_bool b a).

(** [suspicious_count / total_frames if total_frames > 0 else 0]. *)
Definition frame_ratio (suspicious_count total_frames : Z) : Q :=
  if 0 <? total_frames then Qmake suspicious_count (Z.to_pos total_frames) else 0%Q.

Definition _parse_text_response (text : string) (suspicious_count total_frames : Z)
  : gmap string pyval :=
  let ratio := frame_ratio suspicious_count total_frames in
  let is_deepfake :=
    Qltb (3 # 10) ratio || PyStr.any_in DEEPFAKE_KEYWORDS (PyStr.lower text) in
  let confidence :=
    if is_deepfake then Z.min 95 (py_int (ratio * 100))
    else Z.max 5 (py_int ((1 - ratio) * 100)) in
  let indicators := ImageAnalyzer.extract_indicators INDICATOR_KEYWORDS text in
  <["is_deepfake" := PBool is_deepfake]>
  (<["confidence_score" := PInt confidence]>
  (<["analysis" := PStr text]>
  (<["indicators" := PList (PStr <$> take 5 indicators)]> ∅))).

(** *** The per-frame loop *)

Record loop_state : Type := LoopState {
  frame_results : list pyval;
  suspicious_count : Z;
  loop_world : world
}.

Definition frame_entry (frame_number : Z) (is_suspicious : bool) (note : string)
  : pyval :=
  PDict (<["frame_number" := PInt frame_number]>
        (<["is_suspicious" := PBool is_suspicious]>
        (<["note" := PStr note]> ∅))).

(** The entry the [except] clause of the loop body appends. *)
Definition frame_failure (idx : nat) (msg : string) : pyval :=
  frame_entry (Z.of_nat idx + 1) false ("Error analyzing frame: " +:+ msg).

(** One iteration of [for idx, frame_path in enumerate(frames)].  The
    [os.unlink] is the last statement of the [try] block: an exception in
    [Image.open] or in the remote call goes to the [except] clause, which
    only appends an entry. *)
Definition analyze_frame (e : env) (total idx : nat) (frame_path : string)
    (st : loop_state) : loop_state :=
  match Image_open e frame_path with
  | Raised msg =>
      LoopState (frame_results st ++ [frame_failure idx msg])
                (suspicious_count st) (loop_world st)
  | Returned _ =>
      let '(response, w1) :=
        generate e (Request (FramePrompt (Z.of_nat idx + 1) (Z.of_nat total))
                  (Some frame_path))
                 (loop_world st) in
      match response with
      | Raised msg =>
          LoopState (frame_results st ++ [frame_failure idx msg])
                    (suspicious_count st) w1
      | Returned analysis_text =>
          let is_suspicious :=
            PyStr.any_in FRAME_KEYWORDS (PyStr.lower analysis_text) in
          let count :=
            if is_suspicious then suspicious_count st + 1 else suspicious_count st in
          let results :=
            frame_results st ++
            [frame_entry (Z.of_nat idx + 1) is_suspicious
                         (PyStr.slice analysis_text 0 200)] in
          let '(unlinked, w2) := os_unlink frame_path w1 in
          match unlinked with
          | Returned _ => LoopState results count w2
          | Raised msg => LoopState (results ++ [frame_failure idx msg]) count w2
          end
      end
  end.

Fixpoint frame_loop (e : env) (total idx : nat) (frames : list string)
    (st : loop_state) : loop_state :=
  match frames with
  | [] => st
  | frame_path :: rest =>
      frame_loop e total (S idx) rest (analyze_frame e total idx frame_path st)
  end.

(** *** The overall verdict *)

Definition extract_result (e : env) (overall_text : string)
    (suspicious_count total_frames : Z) : pyval :=
  let json_start := PyStr.find "{" overall_text in
  let json_end := PyStr.rfind "}" overall_text + 1 in
  if negb (json_start =? -1) && (json_end >? json_start) then
    let json_str := PyStr.slice overall_text json_start json_end in
    match json_loads e json_str with
    | Some result => result
    | None => PDict (_parse_text_response overall_text suspicious_count total_frames)
    end
  else PDict (_parse_text_response overall_text suspicious_count total_frames).

(** [min(95, (suspicious_count / len(frames)) * 100)]: the float when it
    is below 95, the integer 95 otherwise. *)
Definition default_confidence (suspicious_count total_frames : Z) : pyval :=
  let x := Qred (Qmake suspicious_count (Z.to_pos total_frames) * 100) in
  if Qltb x 95 then PFloat x else PInt 95.

(** [result['frame_analysis'] = ...] and the four [setdefault] calls; the
    item assignment raises [TypeError] on anything but a dictionary. *)
Definition ensure_fields (overall_text : string) (suspicious_count total_frames : Z)
    (frame_results : list pyval) (result : pyval) : outcome (gmap string pyval) :=
  match result with
  | PDict d =>
      let frame_analysis :=
        PDict (<["total_frames" := PInt total_frames]>
              (<["suspicious_frames" := PInt suspicious_count]>
              (<["frame_details" := PList frame_results]> ∅))) in
      Returned
        (setdefault "indicators" (PList [])
        (setdefault "analysis" (PStr overall_text)
        (setdefault "confidence_score"
           (default_confidence suspicious_count total_frames)
        (setdefault "is_deepfake"
           (PBool (Qltb (inject_Z total_frames * (3 # 10)) (inject_Z suspicious_count)))
        (<["frame_analysis" := frame_analysis]> d)))))
  | PList _ => Raised "list indices must be integers or slices, not str"
  | v => Raised ("'" +:+ type_name v +:+ "' object does not support item assignment")
  end.

Definition no_frame_analysis : pyval :=
  PDict (<["total_frames" := PInt 0]> (<["suspicious_frames" := PInt 0]> ∅)).

(** The dictionary returned when no frame could be extracted. *)
Definition no_frames_result : gmap string pyval :=
  <["is_deepfake" := PBool false]>
  (<["confidence_score" := PInt 0]>
  (<["analysis" := PStr "Could not extract frames from video"]>
  (<["indicators" := PList []]>
  (<["frame_analysis" := no_frame_analysis]> ∅)))).

(** The dictionary of the outer [except Exception as e]. *)
Definition error_result (msg : string) : gmap string pyval :=
  <["is_deepfake" := PBool false]>
  (<["confidence_score" := PInt 0]>
  (<["analysis" := PStr ("Error during video analysis: " +:+ msg)]>
  (<["indicators" := PList []]>
  (<["frame_analysis" := no_frame_analysis]>
  (<["error" := PStr msg]> ∅))))).

Definition analyze (e : env) (video_path : string) (max_frames : Z) (w : world)
  : gmap string pyval * world :=
  let '(frames, w0) := _extract_frames e video_path max_frames w in
  match frames with
  | [] => (no_frames_result, w0)
  | _ :: _ =>
      let total := length frames in
      let st := frame_loop e total 0 frames (LoopState [] 0 w0) in
      let '(overall, w2) :=
        generate e (Request (OverallPrompt (suspicious_count st) (Z.of_nat total)) None)
                 (loop_world st) in
      match overall with
      | Raised msg => (error_result msg, w2)
      | Returned overall_text =>
          match ensure_fields overall_text (suspicious_count st) (Z.of_nat total)
                  (frame_results st)
                  (extract_result e overall_text (suspicious_count st) (Z.of_nat total))
          with
          | Returned result => (result, w2)
          | Raised msg => (error_result msg, w2)
          end
      end
  end.

End VideoAnalyzer.

(** ** utils/media_io.py *)

Module MediaHandler.

Definition IMAGE_EXTENSIONS : gset string :=
  {[ ".jpg"; ".jpeg"; ".png"; ".webp"; ".bmp"; ".gif" ]}.
Definition VIDEO_EXTENSIONS : gset string :=
  {[ ".mp4"; ".avi"; ".mov"; ".mkv"; ".flv"; ".wmv" ]}.

(** [Path(file_path).name]: the last component of a POSIX path. *)
Definition path_name (file_path : string) : string :=
  List.last (filter (fun p => p ≠ EmptyString ∧ p ≠ ".") (PyStr.split "/" file_path))
            EmptyString.

(** [Path(file_path).suffix]. *)
Definition path_suffix (file_path : string) : string :=
  let name := path_name file_path in
  let i := PyStr.rfind "." name in
  if (0 <? i) && (i <? Z.of_nat (String.length name) - 1)
  then PyStr.slice name i (Z.of_nat (String.length name))
  else EmptyString.

Definition is_image (file_path : string) : bool :=
  bool_decide (PyStr.lower (path_suffix file_path) ∈ IMAGE_EXTENSIONS).

Definition is_video (file_path : string) : bool :=
  bool_decide (PyStr.lower (path_suffix file_path) ∈ VIDEO_EXTENSIONS).

Definition validate_image (e : env) (file_path : string) : bool :=
  if negb (os_path_exists e file_path) then false
  else if negb (is_image file_path) then false
  else match Image_open e file_path with
       | Raised _ => false
       | Returned _ =>
           match Image_verify e file_path with
           | Raised _ => false
           | Returned _ => true
           end
       end.

Definition validate_video (e : env) (file_path : string) : bool :=
  if negb (os_path_exists e file_path) then false
  else if negb (is_video file_path) then false
  else match VideoCapture e file_path with
       | Raised _ => false
       | Returned cap =>
           if negb (cap_isOpened cap) then false
           else match cap_readable cap with O => false | S _ => true end
       end.

End MediaHandler.

(** ** utils/detect.py *)

Module DeepfakeDetector.

Definition analyze_image (e : env) (image_path : string) (w : world)
  : gmap string pyval * world :=
  if negb (MediaHandler.validate_image e image_path) then
    (<["is_deepfake" := PBool false]>
     (<["confidence_score" := PInt 0]>
     (<["analysis" := PStr "Invalid image file"]>
     (<["indicators" := PList []]>
     (<["error" := PStr "File validation failed"]> ∅)))), w)
  else
    let '(results, w1) := ImageAnalyzer.analyze e image_path w in
    (<["file_path" := PStr image_path]> (<["media_type" := PStr "image"]> results), w1).

Definition analyze_video (e : env) (video_path : string) (max_frames : Z) (w : world)
  : gmap string pyval * world :=
  if negb (MediaHandler.validate_video e video_path) then
    (<["is_deepfake" := PBool false]>
     (<["confidence_score" := PInt 0]>
     (<["analysis" := PStr "Invalid video file"]>
     (<["indicators" := PList []]>
     (<["frame_analysis" := VideoAnalyzer.no_frame_analysis]>
     (<["error" := PStr "File validation failed"]> ∅))))), w)
  else
    let '(results, w1) := VideoAnalyzer.analyze e video_path max_frames w in
    (<["file_path" := PStr video_path]> (<["media_type" := PStr "video"]> results), w1).

(** The body of the [for] loop of [batch_analyze]: which analysis a path
    is given. *)
Definition analyze_one (e : env) (media_type file_path : string) (w : world)
  : gmap string pyval * world :=
  if String.eqb media_type "auto" then
    if MediaHandler.is_image file_path then analyze_image e file_path w
    else if MediaHandler.is_video file_path then analyze_video e file_path 10 w
    else (<["error" := PStr "Unknown file type"]>
          (<["file_path" := PStr file_path]> ∅), w)
  else if String.eqb media_type "image" then analyze_image e file_path w
  else analyze_video e file_path 10 w.

(** The [for] loop, with [results] as its accumulator. *)
Fixpoint batch_loop (e : env) (media_type : string) (file_paths : list string)
    (results : list (gmap string pyval)) (w : world)
  : list (gmap string pyval) * world :=
  match file_paths with
  | [] => (results, w)
  | file_path :: rest =>
      let '(result, w1) := analyze_one e media_type file_path w in
      batch_loop e media_type rest (results ++ [result]) w1
  end.

Definition batch_analyze (e : env) (file_paths : list string) (media_type : string)
    (w : world) : list (gmap string pyval) * world :=
  batch_loop e media_type file_paths [] w.

End DeepfakeDetector.

(** ** A reference [json.loads]

    A reader for the JSON texts used in the concrete runs below: objects,
    arrays, strings with the common escapes, integers, decimal fractions,
    [true], [false] and [null].  The theorems hold for every [json_loads];
    this one only instantiates them. *)

Module JsonLite.

Definition dquote : ascii := ascii_of_nat 34.
Definition backslash : ascii := ascii_of_nat 92.

Definition is_ws (c : ascii) : bool :=
  Ascii.eqb c " " || Ascii.eqb c (ascii_of_nat 9) ||
  Ascii.eqb c (ascii_of_nat 10) || Ascii.eqb c (ascii_of_nat 13).

Fixpoint skip_ws (s : string) : string :=
  match s with
  | EmptyString => EmptyString
  | String c s' => if is_ws c then skip_ws s' else s
  end.

(** The characters of a string literal after its opening quote, and the
    text after the closing quote. *)
Fixpoint string_body (s : string) : option (string * string) :=
  match s with
  | EmptyString => None
  | String c s' =>
      if Ascii.eqb c dquote then Some (EmptyString, s')
      else if Ascii.eqb c backslash then
        match s' with
        | EmptyString => None
        | String x s'' =>
            let unescaped :=
              if Ascii.eqb x "n" then Some (ascii_of_nat 10)
              else if Ascii.eqb x "t" then Some (ascii_of_nat 9)
              else if Ascii.eqb x dquote || Ascii.eqb x backslash || Ascii.eqb x "/"
                   then Some x
              else None in
            match unescaped, string_body s'' with
            | Some a, Some (body, rest) => Some (String a body, rest)
            | _, _ => None
            end
        end
      else
        match string_body s' with
        | Some (body, rest) => Some (String c body, rest)
        | None => None
        end
  end.

Definition digit_of (c : ascii) : option Z :=
  let n := nat_of_ascii c in
  if ((48 <=? n)%nat && (n <=? 57)%nat)%bool then Some (Z.of_nat n - 48) else None.

(** Leading decimal digits: their value, how many there were, the rest. *)
Fixpoint digits (s : string) (acc : Z) (count : nat) : Z * nat * string :=
  match s with
  | EmptyString => (acc, count, s)
  | String c s' =>
      match digit_of c with
      | Some d => digits s' (10 * acc + d) (S count)
      | None => (acc, count, s)
      end
  end.

Definition number (s : string) : option (pyval * string) :=
  let '(negative, s1) :=
    match s with
    | String "-" s' => (true, s')
    | _ => (false, s)
    end in
  let sign := if negative then -1 else 1 in
  match digits s1 0 0 with
  | (_, O, _) => None
  | (whole, S _, String "." s2) =>
      match digits s2 0 0 with
      | (_, O, _) => None
      | (frac, S k, rest) =>
          let den := Pos.pow 10 (Pos.of_nat (S k)) in
          Some (PFloat (Qred (Qmake (sign * (whole * Zpos den + frac)) den)), rest)
      end
  | (whole, S _, rest) => Some (PInt (sign * whole), rest)
  end.

Definition literal (word : string) (v : pyval) (s : string) : option (pyval * string) :=
  if String.prefix word s
  then Some (v, String.substring (String.length word)
                                 (String.length s - String.length word) s)
  else None.

Fixpoint value (fuel : nat) (s : string) : option (pyval * string) :=
  match fuel with
  | O => None
  | S fuel' =>
      match skip_ws s with
      | EmptyString => None
      | String c rest =>
          if Ascii.eqb c "{" then
            match skip_ws rest with
            | String "}" rest' => Some (PDict ∅, rest')
            | _ => members fuel' rest ∅
            end
          else if Ascii.eqb c "[" then
            match skip_ws rest with
            | String "]" rest' => Some (PList [], rest')
            | _ => elements fuel' rest []
            end
          else if Ascii.eqb c dquote then
            match string_body rest with
            | Some (body, rest') => Some (PStr body, rest')
            | None => None
            end
          else if Ascii.eqb c "t" then literal "true" (PBool true) (String c rest)
          else if Ascii.eqb c "f" then literal "false" (PBool false) (String c rest)
          else if Ascii.eqb c "n" then literal "null" PNone (String c rest)
          else number (String c rest)
      end
  end
with members (fuel : nat) (s : string) (acc : gmap string pyval)
  : option (pyval * string) :=
  match fuel with
  | O => None
  | S fuel' =>
      match skip_ws s with
      | String c rest =>
          if Ascii.eqb c dquote then
            match string_body rest with
            | Some (key, rest1) =>
                match skip_ws rest1 with
                | String ":" rest2 =>
                    match value fuel' rest2 with
                    | Some (v, rest3) =>
                        match skip_ws rest3 with
                        | String "," rest4 => members fuel' rest4 (<[key := v]> acc)
                        | String "}" rest4 => Some (PDict (<[key := v]> acc), rest4)
                        | _ => None
                        end
                    | None => None
                    end
                | _ => None
                end
            | None => None
            end
          else None
      | EmptyString => None
      end
  end
with elements (fuel : nat) (s : string) (acc : list pyval)
  : option (pyval * string) :=
  match fuel with
  | O => None
  | S fuel' =>
      match value fuel' s with
      | Some (v, rest) =>
          match skip_ws rest with
          | String "," rest' => elements fuel' rest' (acc ++ [v])
          | String "]" rest' => Some (PList (acc ++ [v]), rest')
          | _ => None
          end
      | None => None
      end
  end.

(** [json.loads(s)]: one value, with nothing but white space after it. *)
Definition loads (s : string) : option pyval :=
  match value (S (String.length s)) s with
  | Some (v, rest) =>
      match skip_ws rest with
      | EmptyString => Some v
      | _ => None
      end
  | None => None
  end.

(** Writes a JSON text with apostrophes in the place of its double quotes. *)
Fixpoint dq (s : string) : string :=
  match s with
  | EmptyString => EmptyString
  | String c s' => String (if Ascii.eqb c "'" then dquote else c) (dq s')
  end.

End JsonLite.

(** ** Vocabulary of the properties *)

(** The span [extract_result] hands to [json.loads]. *)
Definition json_span (text : string) : string :=
  PyStr.slice text (PyStr.find "{" text) (PyStr.rfind "}" text + 1).

(** The fixed defaults of image analysis, as a dictionary. *)
Definition image_defaults (result_text : string) : gmap string pyval :=
  <["is_deepfake" := PBool false]>
  (<["confidence_score" := PInt 0]>
  (<["analysis" := PStr result_text]>
  (<["indicators" := PList []]>
  (<["suspicious_areas" := PList []]> ∅)))).

(** A number between 0 and 100. *)
Definition percentage (v : pyval) : Prop :=
  match v with
  | PInt z => 0 <= z <= 100
  | PFloat q => (0 <= q /\ q <= 100)%Q
  | _ => False
  end.

(** The result has a [confidence_score], and it is a percentage. *)
Definition confidence_in_range (r : gmap string pyval) : Prop :=
  match r !! "confidence_score" with
  | Some v => percentage v
  | None => False
  end.

(** The value of [key] in the result is the one carried by a JSON object
    that the remote model wrote in one of its replies. *)
Definition model_supplied (e : env) (key : string) (r : gmap string pyval) : Prop :=
  ∃ (n : nat) (rq : request) (text : string) (d : gmap string pyval),
    generate_content e n rq = Returned text ∧
    json_loads e (json_span text) = Some (PDict d) ∧
    is_Some (d !! key) ∧
    r !! key = d !! key.

(** The fields of a verdict that reports a failure. *)
Definition safe_defaults (r : gmap string pyval) : Prop :=
  r !! "is_deepfake" = Some (PBool false) ∧
  r !! "confidence_score" = Some (PInt 0) ∧
  (∃ s, r !! "analysis" = Some (PStr s) ∧ s ≠ EmptyString) ∧
  r !! "indicators" = Some (PList []).

(** The text contains a word of the list, case ignored. *)
Definition mentions (words : list string) (text : string) : Prop :=
  ∃ k, k ∈ words ∧ PyStr.contains k (PyStr.lower text) = true.

(** The six-keyword rule: [is_deepfake] is true exactly when the text
    mentions one of the image analyzer's keywords. *)
Definition classified_by_keywords (text : string) (r : gmap string pyval) : Prop :=
  ∃ b, r !! "is_deepfake" = Some (PBool b) ∧
       (b = true ↔ mentions ImageAnalyzer.DEEPFAKE_KEYWORDS text).

(** The running counters the sampler saves: among the readable frames,
    those divisible by the interval, up to [max_frames] of them. *)
Definition sampled_counters (cap : capture) (max_frames : Z) : list Z :=
  let interval := Z.max 1 (cap_frame_count cap / max_frames) in
  take (Z.to_nat max_frames)
       (filter (fun k => k mod interval = 0) (seqZ 0 (Z.of_nat (cap_readable cap)))).

(** Threads the world through one analysis per path, in list order. *)
Fixpoint for_each (f : string -> world -> gmap string pyval * world)
    (paths : list string) (w : world) : list (gmap string pyval) * world :=
  match paths with
  | [] => ([], w)
  | p :: rest =>
      let '(r, w1) := f p w in
      let '(rs, w2) := for_each f rest w1 in
      (r :: rs, w2)
  end.

(** How [ImageAnalyzer.analyze] can end. *)
Inductive image_verdict (e : env) (r : gmap string pyval) : Prop :=
  | image_failed (msg : string) :
      r = ImageAnalyzer.error_result msg → image_verdict e r
  | image_heuristic (text : string) :
      r = ImageAnalyzer._parse_text_response text ∪ image_defaults text →
      image_verdict e r
  | image_json (n : nat) (rq : request) (text : string) (d : gmap string pyval) :
      generate_content e n rq = Returned text →
      json_loads e (json_span text) = Some (PDict d) →
      r = d ∪ image_defaults text →
      image_verdict e r.

(** How [VideoAnalyzer.analyze] can end. *)
Inductive video_verdict (e : env) (r : gmap string pyval) : Prop :=
  | video_no_frames : r = VideoAnalyzer.no_frames_result → video_verdict e r
  | video_failed (msg : string) :
      r = VideoAnalyzer.error_result msg → video_verdict e r
  | video_heuristic (text : string) (s n : Z) (frs : list pyval) :
      0 <= s <= n → 0 < n →
      VideoAnalyzer.ensure_fields text s n frs
        (PDict (VideoAnalyzer._parse_text_response text s n)) = Returned r →
      video_verdict e r
  | video_json (k : nat) (rq : request) (text : string) (s n : Z)
      (frs : list pyval) (d : gmap string pyval) :
      0 <= s <= n → 0 < n →
      generate_content e k rq = Returned text →
      json_loads e (json_span text) = Some (PDict d) →
      VideoAnalyzer.ensure_fields text s n frs (PDict d) = Returned r →
      video_verdict e r.


(** ** Concrete runs *)

Module Scenario.

(** Every file exists and opens, temporary files are numbered, JSON is
    read by [JsonLite.loads]; the video and the replies are given. *)
Definition lab (video : outcome capture) (replies : nat -> request -> outcome string)
  : env :=
  Env JsonLite.loads (fun _ => true) (fun _ => Returned tt) (fun _ => Returned tt)
      (fun _ => video) (fun n => "/tmp/frame" +:+ pretty n +:+ ".jpg") replies.

Definition start : world := World ∅ 0 [] [].

Definition no_video : outcome capture := Raised "not a video".

(** A reply whose JSON object claims a confidence of 150. *)
Definition overconfident_reply : string :=
  JsonLite.dq "Result: {'is_deepfake': true, 'confidence_score': 150} as requested.".

Definition overconfident : env := lab no_video (fun _ _ => Returned overconfident_reply).

(** A reply with prose around a two-field object. *)
Definition wrapped_pre : string := "Here is my assessment: ".
Definition wrapped_body : string :=
  JsonLite.dq "'is_deepfake': true, 'analysis': 'warped jaw line'".
Definition wrapped_post : string := " Let me know if you need more.".
Definition wrapped_reply : string :=
  wrapped_pre +:+ "{" +:+ wrapped_body +:+ "}" +:+ wrapped_post.
Definition wrapped : env := lab no_video (fun _ _ => Returned wrapped_reply).
Definition wrapped_object : gmap string pyval :=
  <["is_deepfake" := PBool true]> (<["analysis" := PStr "warped jaw line"]> ∅).

(** A video that opens and passes validation but reports no frames. *)
Definition empty_clip : env :=
  lab (Returned (Capture true 0 1)) (fun _ _ => Returned "unused").

(** A 30-frame video; the remote call fails on the second frame and
    answers in plain text otherwise. *)
Definition flaky_replies (n : nat) (rq : request) : outcome string :=
  match rq_prompt rq with
  | FramePrompt 2 _ => Raised "429 quota exceeded"
  | FramePrompt _ _ => Returned "The face looks natural."
  | _ => Returned "No sign of tampering."
  end.
Definition flaky : env := lab (Returned (Capture true 30 30)) flaky_replies.


(** No file exists. *)
Definition absent : env :=
  Env JsonLite.loads (fun _ => false) (fun _ => Raised "No such file")
      (fun _ => Raised "No such file") (fun _ => no_video)
      (fun n => "/tmp/frame" +:+ pretty n +:+ ".jpg") (fun _ _ => Raised "unreachable").


(** A 30-frame video with an honest frame count; every remote call answers
    in plain text that flags nothing. *)
Definition calm : env :=
  lab (Returned (Capture true 30 30)) (fun _ _ => Returned "The face looks natural.").

(** The same video when every reply to a frame is alarming. *)
Definition alarming_replies (n : nat) (rq : request) : outcome string :=
  match rq_prompt rq with
  | FramePrompt _ _ => Returned "This frame looks manipulated."
  | _ => Returned "Overall the clip is doubtful."
  end.
Definition alarming : env := lab (Returned (Capture true 30 30)) alarming_replies.

(** The frame details and the summary that three sampled frames of
    [alarming] lead to. *)
Definition alarming_details : list pyval :=
  [VideoAnalyzer.frame_entry 1 true "This frame looks manipulated.";
   VideoAnalyzer.frame_entry 2 true "This frame looks manipulated.";
   VideoAnalyzer.frame_entry 3 true "This frame looks manipulated."].
Definition alarming_summary : gmap string pyval :=
  <["total_frames" := PInt 3]>
  (<["suspicious_frames" := PInt 3]>
  (<["frame_details" := PList alarming_details]> ∅)).

(** A 12-frame video, honest about its length. *)
Definition short_clip : env :=
  lab (Returned (Capture true 12 12)) (fun _ _ => Returned "Nothing unusual.").

End Scenario.

(** ** Reading a verdict *)

(** The value a frame entry, or any dictionary value, holds under a key. *)
Definition entry_field (key : string) (entry : pyval) : option pyval :=
  match entry with
  | PDict d => d !! key
  | _ => None
  end.

(** The entry says the frame is suspicious. *)
Definition flagged (entry : pyval) : bool :=
  match entry_field "is_suspicious" entry with
  | Some (PBool true) => true
  | _ => false
  end.

(** A well-formed frame entry numbered in [(lo, hi]]: its note is a reply
    cut at 200 characters, or it reports an error and is not suspicious. *)
Definition frame_entry_ok (lo hi : Z) (entry : pyval) : Prop :=
  ∃ (k : Z) (b : bool) (note : string),
    entry = VideoAnalyzer.frame_entry k b note ∧
    lo < k <= hi ∧
    ((String.length note <= 200)%nat
     ∨ (b = false ∧ ∃ msg, note = "Error analyzing frame: " +:+ msg)).

(** A request that shows one of the given frame files with a frame prompt
    numbered in [(lo, hi]]. *)
Definition frame_request_ok (total : Z) (frames : list string) (lo hi : Z)
    (rq : request) : Prop :=
  ∃ (k : Z) (p : string),
    rq = Request (FramePrompt k total) (Some p) ∧ p ∈ frames ∧ lo < k <= hi.

(** Every image opens and every remote call answers. *)
Definition always_answers (e : env) : Prop :=
  (∀ p, Image_open e p = Returned tt) ∧
  (∀ n rq, ∃ text, generate_content e n rq = Returned text).

(** ** app.py: the head of [display_results] *)

Module App.

(** Python's truth value of an object. *)
Definition truthy (v : pyval) : bool :=
  match v with
  | PNone => false
  | PBool b => b
  | PInt z => negb (z =? 0)
  | PFloat q => negb (Qeq_bool q 0)
  | PStr s => negb (String.eqb s EmptyString)
  | PList l => match l with [] => false | _ :: _ => true end
  | PDict d => match map_to_list d with [] => false | _ :: _ => true end
  end.

(** The number that [f"{v:.1f}"] formats and that [100 - v] and [v > 70]
    compute with; for anything but a number the format raises. *)
Definition as_number (v : pyval) : outcome Q :=
  match v with
  | PBool b => Returned (if b then 1 else 0)%Q
  | PInt z => Returned (inject_Z z)
  | PFloat q => Returned q
  | PStr _ => Raised "Unknown format code 'f' for object of type 'str'"
  | other => Raised ("unsupported format string passed to " +:+ type_name other
                     +:+ ".__format__")
  end.

(** What the banner and the three metrics show. *)
Record metrics : Type := Metrics {
  verdict_text : string;
  shown_confidence : Q;
  shown_authenticity : Q;
  risk_level : string
}.

(** The overall verdict and the metrics of [display_results]: the two
    [results.get] calls, the banner chosen by the truth value of
    [is_fake], and the confidence, [100 - confidence] and the risk level. *)
Definition display_metrics (results : gmap string pyval) : outcome metrics :=
  let is_fake := default (PBool false) (results !! "is_deepfake") in
  let confidence := default (PInt 0) (results !! "confidence_score") in
  let verdict :=
    if truthy is_fake then "LIKELY DEEPFAKE/AI-GENERATED" else "LIKELY AUTHENTIC" in
  match as_number confidence with
  | Raised msg => Raised msg
  | Returned c =>
      Returned (Metrics verdict c (100 - c)
                  (if VideoAnalyzer.Qltb 70 c then "High"
                   else if VideoAnalyzer.Qltb 40 c then "Medium" else "Low"))
  end.

End App.

(** * Properties *)

(** ** Strings *)

#[local] Arguments String.append !s1 s2 : simpl nomatch.

Lemma app_assoc_str (a b c : string) : (a +:+ b) +:+ c = a +:+ (b +:+ c).
Proof. induction a as [|x a IH]; simpl; [reflexivity | by rewrite IH]. Qed.

Lemma find_lower_bound c s : -1 <= PyStr.find c s.
Proof.
  induction s as [|a s IH]; simpl; [lia|].
  destruct (Ascii.eqb a c); [lia|].
  destruct (Z.eqb_spec (PyStr.find c s) (-1)); lia.
Qed.

Lemma rfind_lower_bound c s : -1 <= PyStr.rfind c s.
Proof.
  induction s as [|a s IH]; simpl; [lia|].
  destruct (Z.eqb_spec (PyStr.rfind c s) (-1)); simpl; [|lia].
  destruct (Ascii.eqb a c); lia.
Qed.

(** The first occurrence of [c] after a prefix without [c] is right after
    the prefix. *)
Lemma find_after_prefix c pre rest :
  PyStr.find c pre = -1 →
  PyStr.find c (pre +:+ String c rest) = Z.of_nat (String.length pre).
Proof.
  induction pre as [|a pre IH]; simpl.
  - by rewrite Ascii.eqb_refl.
  - destruct (Ascii.eqb a c); [discriminate|].
    pose proof (find_lower_bound c pre).
    destruct (Z.eqb_spec (PyStr.find c pre) (-1)) as [Hp|Hp]; [|lia].
    intros _. rewrite (IH Hp).
    destruct (Z.eqb_spec (Z.of_nat (String.length pre)) (-1)); lia.
Qed.

(** The last occurrence of [c] before a suffix without [c] is right before
    the suffix. *)
Lemma rfind_before_suffix c s post :
  PyStr.rfind c post = -1 →
  PyStr.rfind c (s +:+ String c post) = Z.of_nat (String.length s).
Proof.
  intros Hpost. induction s as [|a s IH]; simpl.
  - rewrite Hpost. simpl. by rewrite Ascii.eqb_refl.
  - rewrite IH.
    destruct (Z.eqb_spec (Z.of_nat (String.length s)) (-1)); simpl; lia.
Qed.

Lemma length_app_str (a b : string) :
  String.length (a +:+ b) = (String.length a + String.length b)%nat.
Proof. induction a as [|x a IH]; simpl; [reflexivity | by rewrite IH]. Qed.

Lemma substring_skip (pre s : string) (n : nat) :
  String.substring (String.length pre) n (pre +:+ s) = String.substring 0 n s.
Proof. induction pre as [|a pre IH]; simpl; [reflexivity | exact IH]. Qed.

Lemma substring_prefix (s t : string) :
  String.substring 0 (String.length s) (s +:+ t) = s.
Proof.
  induction s as [|a s IH]; simpl.
  - by destruct t.
  - by rewrite IH.
Qed.

(** In a reply made of prose without [{], an object text in braces, and
    prose without [}], the guard of [extract_result] holds and the span is
    the object text. *)
Lemma json_span_wrapped (pre body post : string) :
  PyStr.find "{" pre = -1 →
  PyStr.rfind "}" post = -1 →
  let text := pre +:+ ("{" +:+ body +:+ "}") +:+ post in
  negb (PyStr.find "{" text =? -1) && (PyStr.rfind "}" text + 1 >? PyStr.find "{" text) = true
  ∧ json_span text = "{" +:+ body +:+ "}".
Proof.
  intros Hpre Hpost text.
  assert (Hfind : PyStr.find "{" text = Z.of_nat (String.length pre)).
  { unfold text. simpl. apply (find_after_prefix "{" pre _ Hpre). }
  assert (Hrfind : PyStr.rfind "}" text
                   = Z.of_nat (String.length pre) + 1 + Z.of_nat (String.length body)).
  { unfold text.
    replace (pre +:+ ("{" +:+ body +:+ "}") +:+ post)
      with ((pre +:+ "{" +:+ body) +:+ String "}" post)
      by (rewrite !app_assoc_str; reflexivity).
    rewrite (rfind_before_suffix "}" _ post Hpost).
    rewrite !length_app_str. simpl. lia. }
  split.
  - rewrite Hfind, Hrfind.
    apply andb_true_intro; split.
    + apply negb_true_iff, Z.eqb_neq. lia.
    + apply Z.gtb_lt. lia.
  - unfold json_span, PyStr.slice. rewrite Hfind, Hrfind.
    rewrite Nat2Z.id.
    replace (Z.to_nat _) with (String.length ("{" +:+ body +:+ "}"))
      by (rewrite !length_app_str; simpl; lia).
    unfold text.
    rewrite substring_skip. apply substring_prefix.
Qed.

(** ** Dictionaries *)

Lemma lookup_setdefault k v (d : gmap string pyval) j :
  setdefault k v d !! j =
  match d !! j with
  | Some x => Some x
  | None => if decide (k = j) then Some v else None
  end.
Proof.
  unfold setdefault. destruct (d !! k) as [x|] eqn:Hk.
  - destruct (d !! j) eqn:Hj; [reflexivity|].
    case_decide; [congruence | reflexivity].
  - rewrite lookup_insert. case_decide.
    + subst. by rewrite Hk.
    + by destruct (d !! j).
Qed.

(** [setdefault] is the union with a one-key dictionary, the receiver
    having priority. *)
Lemma setdefault_union k v (d : gmap string pyval) :
  setdefault k v d = d ∪ {[k := v]}.
Proof.
  apply map_eq; intros j. rewrite lookup_setdefault, lookup_union.
  destruct (d !! j); simpl.
  - by rewrite union_Some_l.
  - rewrite (left_id None _). rewrite lookup_singleton. reflexivity.
Qed.

Lemma image_fields_union (result_text : string) (d : gmap string pyval) :
  ImageAnalyzer.ensure_fields result_text (PDict d)
  = Returned (d ∪ image_defaults result_text).
Proof.
  unfold ImageAnalyzer.ensure_fields. f_equal.
  apply map_eq; intros j.
  rewrite !lookup_setdefault, lookup_union.
  destruct (d !! j) as [x|]; simpl.
  - by rewrite union_Some_l.
  - rewrite (left_id None _). unfold image_defaults.
    rewrite !lookup_insert, lookup_empty.
    repeat case_decide; reflexivity.
Qed.

(** ** Image analysis: the JSON path *)

(** C1. A reply that wraps one JSON object text in prose (no [{] before
    it, no [}] after it) is normalised by parsing exactly the span of the
    object; the result is the parsed object completed with the fixed
    defaults (false, 0, the raw text, [], []), each default being written
    only where the object has no such key. *)
Theorem C1_wrapped_object_completed_with_defaults
    (e : env) (w : world) (image_path pre body post : string)
    (d : gmap string pyval) :
  let object_text := "{" +:+ body +:+ "}" in
  let result_text := pre +:+ object_text +:+ post in
  PyStr.find "{" pre = -1 →
  PyStr.rfind "}" post = -1 →
  json_loads e object_text = Some (PDict d) →
  Image_open e image_path = Returned tt →
  generate_content e (length (calls w)) (Request ImagePrompt (Some image_path))
    = Returned result_text →
  let r := (ImageAnalyzer.analyze e image_path w).1 in
  json_span result_text = object_text ∧
  r = d ∪ image_defaults result_text ∧
  (∀ k v, d !! k = Some v → r !! k = Some v) ∧
  (∀ k, d !! k = None → r !! k = image_defaults result_text !! k).
Proof.
  intros object_text result_text Hpre Hpost Hloads Hopen Hreply r.
  destruct (json_span_wrapped pre body post Hpre Hpost) as [Hguard Hspan].
  fold object_text result_text in Hguard, Hspan.
  assert (Hr : r = d ∪ image_defaults result_text).
  { unfold r, ImageAnalyzer.analyze, generate. rewrite Hopen, Hreply.
    unfold ImageAnalyzer.extract_result. rewrite Hguard.
    fold (json_span result_text). rewrite Hspan, Hloads.
    by rewrite image_fields_union. }
  split; [exact Hspan|]. split; [exact Hr|]. split.
  - intros k v Hk. rewrite Hr. by apply lookup_union_Some_l.
  - intros k Hk. rewrite Hr. by apply lookup_union_r.
Qed.

Lemma C1_wrapped_object_witness :
  (ImageAnalyzer.analyze Scenario.wrapped "face.png" Scenario.start).1
  = Scenario.wrapped_object ∪ image_defaults Scenario.wrapped_reply.
Proof.
  refine (proj1 (proj2 (C1_wrapped_object_completed_with_defaults
            Scenario.wrapped Scenario.start "face.png"
            Scenario.wrapped_pre Scenario.wrapped_body Scenario.wrapped_post
            Scenario.wrapped_object _ _ _ _ _)));
    vm_compute; reflexivity.
Defined.

(** ** Image analysis: the heuristic reading *)

Lemma any_in_mentions (words : list string) (text : string) :
  PyStr.any_in words (PyStr.lower text) = true ↔ mentions words text.
Proof.
  unfold PyStr.any_in, mentions. rewrite existsb_exists.
  split; intros [k [Hin Hk]]; exists k; split; try done;
    by apply list_elem_of_In.
Qed.

Lemma any_in_silent (words : list string) (text : string) :
  PyStr.any_in words (PyStr.lower text) = false ↔ ¬ mentions words text.
Proof.
  rewrite <- any_in_mentions. by destruct (PyStr.any_in words (PyStr.lower text)).
Qed.

(** The last check that matches decides the confidence. *)
Lemma estimate_confidence_last_match (text : string) :
  ImageAnalyzer.estimate_confidence text =
  if PyStr.any_in ImageAnalyzer.POSSIBLY_WORDS (PyStr.lower text) then 40
  else if PyStr.any_in ImageAnalyzer.DEFINITELY_WORDS (PyStr.lower text) then 85
  else if PyStr.any_in ImageAnalyzer.LIKELY_WORDS (PyStr.lower text) then 65
  else 0.
Proof.
  unfold ImageAnalyzer.estimate_confidence.
  destruct (PyStr.any_in ImageAnalyzer.POSSIBLY_WORDS (PyStr.lower text)),
           (PyStr.any_in ImageAnalyzer.DEFINITELY_WORDS (PyStr.lower text)),
           (PyStr.any_in ImageAnalyzer.LIKELY_WORDS (PyStr.lower text)); reflexivity.
Qed.

Lemma image_heuristic_fields (text : string) :
  let b := PyStr.any_in ImageAnalyzer.DEEPFAKE_KEYWORDS (PyStr.lower text) in
  let c := ImageAnalyzer.estimate_confidence text in
  ImageAnalyzer._parse_text_response text !! "is_deepfake" = Some (PBool b) ∧
  ImageAnalyzer._parse_text_response text !! "confidence_score"
    = Some (PInt (if b then c else 100 - c)) ∧
  ImageAnalyzer._parse_text_response text !! "error" = None.
Proof. intros b c. unfold ImageAnalyzer._parse_text_response. by simplify_map_eq. Qed.

(** C4. The three confidence checks run in source order: likely, probably,
    appears give 65; then definitely, clearly, obvious give 85; then
    possibly, might, could give 40; each check that matches overwrites the
    value left by the earlier ones, and the value is 0 when none matches.
    So a word of the possibly family gives 40 whatever else the text says, a
    word of the definitely family gives 85 unless a possibly word follows in
    the order, and a word of the likely family gives 65 only when neither
    later family matches.  Hence a text with a word of the likely family and
    a word of the definitely family but none of the possibly family gets the
    computed confidence 85, not 65, which is returned as 85 when the text is
    classified as a deepfake and as 100 - 85 otherwise. *)
Theorem C4_definitely_overrides_likely (text : string) :
  let likely := mentions ["likely"; "probably"; "appears"] text in
  let definitely := mentions ["definitely"; "clearly"; "obvious"] text in
  let possibly := mentions ["possibly"; "might"; "could"] text in
  let confidence := ImageAnalyzer.estimate_confidence text in
  (possibly → confidence = 40) ∧
  (definitely → ¬ possibly → confidence = 85) ∧
  (likely → ¬ definitely → ¬ possibly → confidence = 65) ∧
  (¬ likely → ¬ definitely → ¬ possibly → confidence = 0) ∧
  (likely → definitely → ¬ possibly →
   confidence = 85 ∧ confidence ≠ 65 ∧
   ∃ b, ImageAnalyzer._parse_text_response text !! "is_deepfake" = Some (PBool b) ∧
        ImageAnalyzer._parse_text_response text !! "confidence_score"
          = Some (PInt (if b then 85 else 15))).
Proof.
  intros likely definitely possibly confidence.
  pose proof (estimate_confidence_last_match text) as Hc.
  destruct (image_heuristic_fields text) as (Hb & Hs & _).
  fold confidence in Hc, Hs.
  pose proof (any_in_mentions ImageAnalyzer.LIKELY_WORDS text) as Hl.
  pose proof (any_in_mentions ImageAnalyzer.DEFINITELY_WORDS text) as Hd.
  pose proof (any_in_mentions ImageAnalyzer.POSSIBLY_WORDS text) as Hp.
  change (mentions ImageAnalyzer.LIKELY_WORDS text) with likely in Hl.
  change (mentions ImageAnalyzer.DEFINITELY_WORDS text) with definitely in Hd.
  change (mentions ImageAnalyzer.POSSIBLY_WORDS text) with possibly in Hp.
  clearbody confidence likely definitely possibly.
  revert Hc Hl Hd Hp.
  destruct (PyStr.any_in ImageAnalyzer.POSSIBLY_WORDS (PyStr.lower text)),
           (PyStr.any_in ImageAnalyzer.DEFINITELY_WORDS (PyStr.lower text)),
           (PyStr.any_in ImageAnalyzer.LIKELY_WORDS (PyStr.lower text));
    intros Hc Hl Hd Hp;
    (assert (Hyes : true = true) by reflexivity);
    (assert (Hno : ¬ false = true) by discriminate);
    (split; [tauto|]); (split; [tauto|]); (split; [tauto|]); (split; [tauto|]);
    intros Hlikely Hdefinitely Hpossibly; try tauto.
  split; [exact Hc|]. split; [lia|].
  eexists. split; [exact Hb|]. rewrite Hs, Hc.
  by destruct (PyStr.any_in ImageAnalyzer.DEEPFAKE_KEYWORDS (PyStr.lower text)).
Qed.

Lemma C4_definitely_overrides_likely_witness :
  ImageAnalyzer.estimate_confidence "It is likely, in fact obvious, that this is fake." = 85 ∧
  ImageAnalyzer.estimate_confidence "The face appears edited." = 65 ∧
  ImageAnalyzer.estimate_confidence "Clearly and likely edited, but it might be real." = 40 ∧
  ImageAnalyzer.estimate_confidence "A portrait of a woman." = 0.
Proof.
  split; [|split; [|split]].
  - refine (proj1 (proj2 (C4_definitely_overrides_likely _)) _ _).
    + exists "obvious".
      split; [apply list_elem_of_In; simpl; tauto | vm_compute; reflexivity].
    + apply (any_in_silent ImageAnalyzer.POSSIBLY_WORDS). vm_compute; reflexivity.
  - refine (proj1 (proj2 (proj2 (C4_definitely_overrides_likely _))) _ _ _).
    + exists "appears".
      split; [apply list_elem_of_In; simpl; tauto | vm_compute; reflexivity].
    + apply (any_in_silent ImageAnalyzer.DEFINITELY_WORDS). vm_compute; reflexivity.
    + apply (any_in_silent ImageAnalyzer.POSSIBLY_WORDS). vm_compute; reflexivity.
  - refine (proj1 (C4_definitely_overrides_likely _) _).
    exists "might".
    split; [apply list_elem_of_In; simpl; tauto | vm_compute; reflexivity].
  - refine (proj1 (proj2 (proj2 (proj2 (C4_definitely_overrides_likely _)))) _ _ _).
    + apply (any_in_silent ImageAnalyzer.LIKELY_WORDS). vm_compute; reflexivity.
    + apply (any_in_silent ImageAnalyzer.DEFINITELY_WORDS). vm_compute; reflexivity.
    + apply (any_in_silent ImageAnalyzer.POSSIBLY_WORDS). vm_compute; reflexivity.
Defined.

(** C9. A text that mentions no classification keyword and no word of the
    three confidence families is read as not a deepfake with
    [confidence_score] 100, that is 100 - 0. *)
Theorem C9_silent_text_scores_100 (text : string) :
  ¬ mentions ImageAnalyzer.DEEPFAKE_KEYWORDS text →
  ¬ mentions ImageAnalyzer.LIKELY_WORDS text →
  ¬ mentions ImageAnalyzer.DEFINITELY_WORDS text →
  ¬ mentions ImageAnalyzer.POSSIBLY_WORDS text →
  ImageAnalyzer._parse_text_response text !! "is_deepfake" = Some (PBool false) ∧
  ImageAnalyzer._parse_text_response text !! "confidence_score" = Some (PInt 100).
Proof.
  intros Hkw Hl Hd Hp.
  apply any_in_silent in Hkw, Hl, Hd, Hp.
  destruct (image_heuristic_fields text) as (Hb & Hs & _).
  rewrite Hb, Hs, estimate_confidence_last_match, Hkw, Hl, Hd, Hp. done.
Qed.

Lemma C9_silent_text_witness :
  ImageAnalyzer._parse_text_response "The photo seems genuine." !! "confidence_score"
  = Some (PInt 100).
Proof.
  refine (proj2 (C9_silent_text_scores_100 _ _ _ _ _));
    apply any_in_silent; vm_compute; reflexivity.
Defined.

(** ** Video analysis: the heuristic reading *)

Lemma Qltb_lt (a b : Q) : VideoAnalyzer.Qltb a b = true ↔ (a < b)%Q.
Proof.
  unfold VideoAnalyzer.Qltb. rewrite negb_true_iff, <- not_true_iff_false.
  split.
  - intros H. apply Qnot_le_lt. intros Hle. by apply H, Qle_bool_iff.
  - intros H Hle. apply Qle_bool_iff in Hle. by apply (Qlt_not_le _ _ H).
Qed.

(** [ratio > 0.3], in integers. *)
Lemma ratio_above_threshold (s n : Z) :
  VideoAnalyzer.Qltb (3 # 10) (VideoAnalyzer.frame_ratio s n) = true
  ↔ 0 < n ∧ 3 * n < 10 * s.
Proof.
  rewrite Qltb_lt. unfold VideoAnalyzer.frame_ratio.
  destruct (Z.ltb_spec 0 n) as [Hn|Hn].
  - unfold Qlt. simpl. rewrite Z2Pos.id by lia. lia.
  - unfold Qlt. simpl. lia.
Qed.

Lemma video_heuristic_fields (text : string) (s n : Z) :
  let ratio := VideoAnalyzer.frame_ratio s n in
  let b := VideoAnalyzer.Qltb (3 # 10) ratio
           || PyStr.any_in VideoAnalyzer.DEEPFAKE_KEYWORDS (PyStr.lower text) in
  let r := VideoAnalyzer._parse_text_response text s n in
  r !! "is_deepfake" = Some (PBool b) ∧
  r !! "confidence_score"
    = Some (PInt (if b then Z.min 95 (VideoAnalyzer.py_int (ratio * 100))
                  else Z.max 5 (VideoAnalyzer.py_int ((1 - ratio) * 100)))) ∧
  r !! "error" = None ∧
  r !! "frame_analysis" = None.
Proof. intros ratio b r. unfold r, VideoAnalyzer._parse_text_response. by simplify_map_eq. Qed.

(** C3, as the code has it.  The image-mode fallback classifies by the six
    keywords alone.  The video-mode fallback classifies as a deepfake
    exactly when more than three tenths of the frames were suspicious or the
    text mentions one of its own four keywords. *)
Theorem C3_fallback_classification (text : string) (s n : Z) :
  classified_by_keywords text (ImageAnalyzer._parse_text_response text) ∧
  ∃ b, VideoAnalyzer._parse_text_response text s n !! "is_deepfake" = Some (PBool b) ∧
       (b = true ↔ (0 < n ∧ 3 * n < 10 * s)
                   ∨ mentions VideoAnalyzer.DEEPFAKE_KEYWORDS text).
Proof.
  split.
  - destruct (image_heuristic_fields text) as (Hb & _).
    eexists. split; [exact Hb|]. apply any_in_mentions.
  - destruct (video_heuristic_fields text s n) as (Hb & _).
    eexists. split; [exact Hb|].
    rewrite orb_true_iff, ratio_above_threshold, any_in_mentions. reflexivity.
Qed.

(** C3 fails in video mode: the text mentions "synthetic", one of the six
    keywords, and with no suspicious frame the verdict is still false. *)
Lemma C3_video_mode_counterexample :
  ¬ classified_by_keywords "This clip looks synthetic."
      (VideoAnalyzer._parse_text_response "This clip looks synthetic." 0 10).
Proof.
  intros (b & Hb & Hiff).
  assert (Hfalse : VideoAnalyzer._parse_text_response "This clip looks synthetic." 0 10
                   !! "is_deepfake" = Some (PBool false)) by (vm_compute; reflexivity).
  assert (Htrue : b = true).
  { apply (proj2 Hiff). exists "synthetic".
    split; [apply list_elem_of_In; simpl; tauto | vm_compute; reflexivity]. }
  congruence.
Qed.

(** ** The range of the confidence *)

Lemma estimate_confidence_range (text : string) :
  0 <= ImageAnalyzer.estimate_confidence text <= 100.
Proof.
  rewrite estimate_confidence_last_match.
  destruct (PyStr.any_in ImageAnalyzer.POSSIBLY_WORDS (PyStr.lower text)),
           (PyStr.any_in ImageAnalyzer.DEFINITELY_WORDS (PyStr.lower text)),
           (PyStr.any_in ImageAnalyzer.LIKELY_WORDS (PyStr.lower text)); lia.
Qed.

Lemma image_heuristic_in_range (text : string) :
  confidence_in_range (ImageAnalyzer._parse_text_response text).
Proof.
  unfold confidence_in_range.
  destruct (image_heuristic_fields text) as (_ & -> & _).
  pose proof (estimate_confidence_range text).
  destruct (PyStr.any_in ImageAnalyzer.DEEPFAKE_KEYWORDS (PyStr.lower text));
    simpl; lia.
Qed.

Lemma video_heuristic_in_range (text : string) (s n : Z) :
  0 <= s <= n →
  confidence_in_range (VideoAnalyzer._parse_text_response text s n).
Proof.
  intros Hs. unfold confidence_in_range.
  destruct (video_heuristic_fields text s n) as (_ & -> & _).
  unfold VideoAnalyzer.frame_ratio, VideoAnalyzer.py_int.
  destruct (Z.ltb_spec 0 n) as [Hn|Hn].
  - cbn [Qmult Qminus Qplus Qopp Qnum Qden].
    set (p := Z.to_pos n).
    assert (Hp : Z.pos p = n) by (unfold p; rewrite Z2Pos.id; lia).
    match goal with |- context [if ?b then _ else _] => destruct b end.
    + assert (0 <= s * 100 ÷ Z.pos (p * 1)) by (apply Z.quot_pos; lia).
      simpl; lia.
    + assert ((1 * Z.pos p + - s * 1) * 100 ÷ Z.pos (1 * p * 1) <= 100).
      { apply Z.quot_le_upper_bound; lia. }
      simpl; lia.
  - match goal with |- context [if ?b then _ else _] => destruct b end;
      vm_compute; intuition discriminate.
Qed.

Lemma default_confidence_percentage (s n : Z) :
  0 <= s → 0 < n → percentage (VideoAnalyzer.default_confidence s n).
Proof.
  intros Hs Hn. unfold VideoAnalyzer.default_confidence.
  set (x := Qred _).
  destruct (VideoAnalyzer.Qltb x 95) eqn:Hlt; simpl; [|lia].
  apply Qltb_lt in Hlt. split.
  - unfold x. rewrite Qred_correct. unfold Qle. simpl. lia.
  - apply Qlt_le_weak. eapply Qlt_trans; [exact Hlt|]. reflexivity.
Qed.

(** ** The shapes a verdict can have *)

Lemma image_analyze_verdict (e : env) (image_path : string) (w : world) :
  image_verdict e (ImageAnalyzer.analyze e image_path w).1.
Proof.
  unfold ImageAnalyzer.analyze, generate.
  destruct (Image_open e image_path) as [[]|msg]; [|by eapply image_failed].
  destruct (generate_content e _ _) as [text|msg] eqn:Hreply; simpl;
    [|by eapply image_failed].
  unfold ImageAnalyzer.extract_result. fold (json_span text).
  destruct (negb _ && _).
  - destruct (json_loads e (json_span text)) as [v|] eqn:Hloads.
    + destruct v; try (simpl; by eapply image_failed).
      rewrite image_fields_union. simpl. by eapply image_json.
    + rewrite image_fields_union. simpl. by eapply image_heuristic.
  - rewrite image_fields_union. simpl. by eapply image_heuristic.
Qed.

Lemma video_fields_lookup (text : string) (s n : Z) (frs : list pyval)
    (d r : gmap string pyval) :
  VideoAnalyzer.ensure_fields text s n frs (PDict d) = Returned r →
  r !! "confidence_score"
    = Some (default (VideoAnalyzer.default_confidence s n) (d !! "confidence_score")) ∧
  r !! "is_deepfake"
    = Some (default (PBool (VideoAnalyzer.Qltb (inject_Z n * (3 # 10)) (inject_Z s)))
                    (d !! "is_deepfake")) ∧
  r !! "analysis" = Some (default (PStr text) (d !! "analysis")) ∧
  r !! "indicators" = Some (default (PList []) (d !! "indicators")) ∧
  r !! "error" = d !! "error".
Proof.
  unfold VideoAnalyzer.ensure_fields. intros [= <-].
  rewrite !lookup_setdefault.
  rewrite !lookup_insert_ne by done.
  repeat split;
    match goal with |- context [d !! ?k] => destruct (d !! k) end;
    repeat case_decide; done.
Qed.

Lemma analyze_frame_count (e : env) (total idx : nat) (p : string)
    (st : VideoAnalyzer.loop_state) :
  VideoAnalyzer.suspicious_count st
  <= VideoAnalyzer.suspicious_count (VideoAnalyzer.analyze_frame e total idx p st)
  <= VideoAnalyzer.suspicious_count st + 1.
Proof.
  unfold VideoAnalyzer.analyze_frame, generate, os_unlink.
  destruct (Image_open e p); [|simpl; lia].
  destruct (generate_content e _ _) as [text|msg]; [|simpl; lia].
  destruct (PyStr.any_in VideoAnalyzer.FRAME_KEYWORDS (PyStr.lower text));
    case_decide; simpl; lia.
Qed.

Lemma frame_loop_count (e : env) (total : nat) (frames : list string) :
  ∀ (idx : nat) (st : VideoAnalyzer.loop_state),
  VideoAnalyzer.suspicious_count st
  <= VideoAnalyzer.suspicious_count (VideoAnalyzer.frame_loop e total idx frames st)
  <= VideoAnalyzer.suspicious_count st + Z.of_nat (length frames).
Proof.
  induction frames as [|p frames IH]; intros idx st; simpl; [lia|].
  pose proof (analyze_frame_count e total idx p st).
  pose proof (IH (S idx) (VideoAnalyzer.analyze_frame e total idx p st)). lia.
Qed.

Lemma video_analyze_verdict (e : env) (video_path : string) (max_frames : Z)
    (w : world) :
  video_verdict e (VideoAnalyzer.analyze e video_path max_frames w).1.
Proof.
  unfold VideoAnalyzer.analyze.
  destruct (VideoAnalyzer._extract_frames e video_path max_frames w) as [frames w0].
  destruct frames as [|f frames]; [by apply video_no_frames|].
  set (total := length (f :: frames)).
  set (st := VideoAnalyzer.frame_loop e total 0 (f :: frames) _).
  pose proof (frame_loop_count e total (f :: frames) 0
                (VideoAnalyzer.LoopState [] 0 w0)) as Hcount.
  fold st in Hcount. fold total in Hcount. simpl in Hcount.
  assert (Hpos : 0 < Z.of_nat total) by (unfold total; simpl; lia).
  unfold generate.
  destruct (generate_content e _ _) as [text|msg] eqn:Hreply; simpl;
    [|by eapply video_failed].
  unfold VideoAnalyzer.extract_result. fold (json_span text).
  destruct (negb _ && _);
    [destruct (json_loads e (json_span text)) as [v|] eqn:Hloads|].
  - destruct v; try (simpl; by eapply video_failed).
    destruct (VideoAnalyzer.ensure_fields _ _ _ _ _) as [r|msg] eqn:Hr; simpl.
    + by eapply video_json.
    + by eapply video_failed.
  - destruct (VideoAnalyzer.ensure_fields _ _ _ _ _) as [r|msg] eqn:Hr; simpl.
    + by eapply video_heuristic.
    + by eapply video_failed.
  - destruct (VideoAnalyzer.ensure_fields _ _ _ _ _) as [r|msg] eqn:Hr; simpl.
    + by eapply video_heuristic.
    + by eapply video_failed.
Qed.

(** ** The confidence of a verdict *)

Lemma image_confidence (e : env) (r : gmap string pyval) :
  image_verdict e r →
  confidence_in_range r ∨ model_supplied e "confidence_score" r.
Proof.
  intros [msg ->|text ->|n rq text d Hreply Hloads ->].
  - left. unfold confidence_in_range, ImageAnalyzer.error_result.
    simplify_map_eq. simpl. lia.
  - left. pose proof (image_heuristic_in_range text) as Hrange.
    unfold confidence_in_range in *.
    destruct (ImageAnalyzer._parse_text_response text !! "confidence_score")
      as [v|] eqn:Hv; [|done].
    by rewrite (lookup_union_Some_l _ _ _ _ Hv).
  - destruct (d !! "confidence_score") as [v|] eqn:Hv.
    + right. exists n, rq, text, d. repeat split; try done.
      rewrite Hv. by apply lookup_union_Some_l.
    + left. unfold confidence_in_range.
      rewrite lookup_union_r by done. unfold image_defaults.
      simplify_map_eq. simpl. lia.
Qed.

Lemma video_confidence (e : env) (r : gmap string pyval) :
  video_verdict e r →
  confidence_in_range r ∨ model_supplied e "confidence_score" r.
Proof.
  intros [->| msg -> | text s n frs Hs Hn Hr | k rq text s n frs d Hs Hn Hreply Hloads Hr].
  - left. unfold confidence_in_range, VideoAnalyzer.no_frames_result.
    simplify_map_eq. simpl. lia.
  - left. unfold confidence_in_range, VideoAnalyzer.error_result.
    simplify_map_eq. simpl. lia.
  - left. apply video_fields_lookup in Hr as (Hc & _).
    pose proof (video_heuristic_in_range text s n Hs) as Hrange.
    unfold confidence_in_range in *. rewrite Hc.
    by destruct (VideoAnalyzer._parse_text_response text s n !! "confidence_score").
  - apply video_fields_lookup in Hr as (Hc & _).
    destruct (d !! "confidence_score") as [v|] eqn:Hv.
    + right. exists k, rq, text, d. repeat split; try done. by rewrite Hc, Hv.
    + left. unfold confidence_in_range. rewrite Hc. simpl.
      apply default_confidence_percentage; lia.
Qed.

Lemma stamped_lookup (r : gmap string pyval) (kind path : pyval) (key : string) :
  key ≠ "file_path" → key ≠ "media_type" →
  (<["file_path" := path]> (<["media_type" := kind]> r)) !! key = r !! key.
Proof. intros. by rewrite !lookup_insert_ne. Qed.

Lemma model_supplied_stamped (e : env) (key : string) (r : gmap string pyval)
    (kind path : pyval) :
  key ≠ "file_path" → key ≠ "media_type" →
  model_supplied e key r →
  model_supplied e key (<["file_path" := path]> (<["media_type" := kind]> r)).
Proof.
  intros H1 H2 (n & rq & text & d & Hreply & Hloads & Hsome & Hkey).
  exists n, rq, text, d. repeat split; try done. by rewrite stamped_lookup.
Qed.

(** C2, as the code has it.  On every path of image and video analysis the
    [confidence_score] of the result lies in [0,100], except when the remote
    model's reply carried a JSON object with a [confidence_score] of its
    own: that value is returned as it is, whatever it is. *)
Theorem C2_confidence_in_range_unless_model_supplied
    (e : env) (w : world) (path : string) (max_frames : Z) :
  let settled r := confidence_in_range r ∨ model_supplied e "confidence_score" r in
  settled (ImageAnalyzer.analyze e path w).1 ∧
  settled (VideoAnalyzer.analyze e path max_frames w).1 ∧
  settled (DeepfakeDetector.analyze_image e path w).1 ∧
  settled (DeepfakeDetector.analyze_video e path max_frames w).1.
Proof.
  intros settled. unfold settled.
  pose proof (image_confidence e _ (image_analyze_verdict e path w)) as Himage.
  pose proof (video_confidence e _ (video_analyze_verdict e path max_frames w))
    as Hvideo.
  split; [exact Himage|]. split; [exact Hvideo|]. split.
  - unfold DeepfakeDetector.analyze_image.
    destruct (negb _).
    + left. unfold confidence_in_range. simpl. simplify_map_eq. simpl. lia.
    + destruct (ImageAnalyzer.analyze e path w) as [r w1]. simpl in *.
      destruct Himage as [H|H].
      * left. unfold confidence_in_range in *. by rewrite stamped_lookup.
      * right. by apply model_supplied_stamped.
  - unfold DeepfakeDetector.analyze_video.
    destruct (negb _).
    + left. unfold confidence_in_range. simpl. simplify_map_eq. simpl. lia.
    + destruct (VideoAnalyzer.analyze e path max_frames w) as [r w1]. simpl in *.
      destruct Hvideo as [H|H].
      * left. unfold confidence_in_range in *. by rewrite stamped_lookup.
      * right. by apply model_supplied_stamped.
Qed.

(** C2 fails on the JSON path: the reply's object says 150, and 150 is what
    the caller gets. *)
Lemma C2_model_confidence_counterexample :
  (DeepfakeDetector.analyze_image Scenario.overconfident "face.png" Scenario.start).1
    !! "confidence_score" = Some (PInt 150)
  ∧ ¬ confidence_in_range
        (DeepfakeDetector.analyze_image Scenario.overconfident "face.png" Scenario.start).1.
Proof.
  assert (H : (DeepfakeDetector.analyze_image Scenario.overconfident "face.png"
                 Scenario.start).1 !! "confidence_score" = Some (PInt 150))
    by (vm_compute; reflexivity).
  split; [exact H|]. unfold confidence_in_range. rewrite H. simpl. lia.
Qed.

(** ** Verdicts that report a failure *)












(** ** Frame sampling *)

(** What the reading loop adds, from any point of the stream: the names of
    the next temporary files, one per counter that is divisible by the
    interval, until [max_frames] names are held or the stream ends. *)
Lemma read_loop_spec (e : env) (interval max_frames : Z) (remaining : nat) :
  ∀ (frame_count extracted : Z) (frames : list string) (w : world),
  let taken :=
    take (Z.to_nat (max_frames - extracted))
         (filter (fun k => k mod interval = 0) (seqZ frame_count (Z.of_nat remaining))) in
  let names := NamedTemporaryFile e <$> seq (tmp_created w) (length taken) in
  let out := VideoAnalyzer.read_loop e interval max_frames true remaining
               frame_count extracted frames w in
  out.1 = frames ++ names ∧
  imwrites out.2 = imwrites w ++ zip names taken ∧
  calls out.2 = calls w.
Proof.
  induction remaining as [|remaining IH]; intros frame_count extracted frames w.
  - simpl. rewrite andb_true_r.
    rewrite seqZ_nil by lia. rewrite filter_nil, take_nil. simpl.
    rewrite !app_nil_r.
    by destruct (extracted <? max_frames).
  - cbn zeta. cbn [VideoAnalyzer.read_loop]. rewrite andb_true_r.
    rewrite seqZ_cons by lia.
    replace (Z.pred (Z.of_nat (S remaining))) with (Z.of_nat remaining) by lia.
    destruct (Z.ltb_spec extracted max_frames) as [Hlt|Hge].
    + destruct (Z.eqb_spec (frame_count mod interval) 0) as [Hdiv|Hdiv].
      * rewrite filter_cons_True by done.
        replace (Z.to_nat (max_frames - extracted))
          with (S (Z.to_nat (max_frames - (extracted + 1)))) by lia.
        cbn [take length seq fmap list_fmap].
        specialize (IH (frame_count + 1) (extracted + 1)
                       (frames ++ [NamedTemporaryFile e (tmp_created w)])
                       (World (files w ∪ {[NamedTemporaryFile e (tmp_created w)]})
                              (S (tmp_created w))
                              (imwrites w ++ [(NamedTemporaryFile e (tmp_created w),
                                               frame_count)])
                              (calls w))).
        cbn zeta in IH. cbn [tmp_created imwrites calls] in IH.
        replace (Z.succ frame_count) with (frame_count + 1) by lia.
        destruct IH as (IH1 & IH2 & IH3).
        rewrite IH1, IH2, IH3. rewrite <- !app_assoc. done.
      * rewrite filter_cons_False by done.
        specialize (IH (frame_count + 1) extracted frames w).
        replace (Z.succ frame_count) with (frame_count + 1) by lia.
        exact IH.
    + replace (Z.to_nat (max_frames - extracted)) with O by lia.
      rewrite take_0. simpl. by rewrite !app_nil_r.
Qed.

(** A stream that is not open is never read. *)
Lemma read_loop_closed (e : env) (interval max_frames : Z) (remaining : nat)
    (frame_count extracted : Z) (frames : list string) (w : world) :
  VideoAnalyzer.read_loop e interval max_frames false remaining
    frame_count extracted frames w = (frames, w).
Proof. destruct remaining; simpl; by rewrite andb_false_r. Qed.

(** C8. For [max_frames >= 1] the sampler works with the interval
    max(1, total_frames // max_frames), saves exactly the readable frames
    whose running counter is divisible by the interval, in order, and stops
    at [max_frames] of them or at the end of the stream, so that it never
    returns more than [max_frames] names; it returns the empty list, raising
    nothing, when the video reports zero frames, is not opened, or cannot be
    captured at all. *)
Theorem C8_sampler_takes_divisible_counters
    (e : env) (video_path : string) (max_frames : Z) (w : world) :
  1 <= max_frames →
  let out := VideoAnalyzer._extract_frames e video_path max_frames w in
  (length out.1 <= Z.to_nat max_frames)%nat ∧
  calls out.2 = calls w ∧
  match VideoCapture e video_path with
  | Raised _ => out = ([], w)
  | Returned cap =>
      if (cap_frame_count cap =? 0) || negb (cap_isOpened cap) then out = ([], w)
      else
        let taken := sampled_counters cap max_frames in
        out.1 = NamedTemporaryFile e <$> seq (tmp_created w) (length taken) ∧
        imwrites out.2 = imwrites w ++ zip out.1 taken
  end.
Proof.
  intros Hmax out. unfold out, VideoAnalyzer._extract_frames.
  destruct (VideoCapture e video_path) as [cap|msg]; [|simpl; split; [lia|done]].
  destruct (Z.eqb_spec (cap_frame_count cap) 0) as [Hzero|Hzero];
    [simpl; split; [lia|done]|].
  destruct (Z.eqb_spec max_frames 0) as [?|_]; [lia|].
  destruct (cap_isOpened cap).
  - pose proof (read_loop_spec e (Z.max 1 (cap_frame_count cap / max_frames))
                  max_frames (cap_readable cap) 0 0 [] w) as H.
    cbn zeta in H. rewrite Z.sub_0_r in H. destruct H as (H1 & H2 & H3).
    fold (sampled_counters cap max_frames) in H1, H2.
    simpl in H1. split; [|split; [exact H3|]].
    + rewrite H1, length_fmap, length_seq.
      unfold sampled_counters. rewrite length_take. lia.
    + simpl. split; [exact H1|]. by rewrite H1.
  - rewrite read_loop_closed. simpl. split; [lia|done].
Qed.

Lemma C8_sampler_witness :
  (VideoAnalyzer._extract_frames Scenario.flaky "clip.mp4" 4 Scenario.start).1
  = ["/tmp/frame0.jpg"; "/tmp/frame1.jpg"; "/tmp/frame2.jpg"; "/tmp/frame3.jpg"]
  ∧ imwrites (VideoAnalyzer._extract_frames Scenario.flaky "clip.mp4" 4 Scenario.start).2
    = [("/tmp/frame0.jpg", 0); ("/tmp/frame1.jpg", 7);
       ("/tmp/frame2.jpg", 14); ("/tmp/frame3.jpg", 21)].
Proof.
  assert (H : 1 <= 4) by lia.
  destruct (C8_sampler_takes_divisible_counters Scenario.flaky "clip.mp4" 4
              Scenario.start H) as (_ & _ & Hsel).
  vm_compute in Hsel. exact Hsel.
Defined.

(** ** Videos without frames *)

Lemma extract_frames_calls (e : env) (video_path : string) (max_frames : Z)
    (w : world) :
  calls (VideoAnalyzer._extract_frames e video_path max_frames w).2 = calls w.
Proof.
  unfold VideoAnalyzer._extract_frames.
  destruct (VideoCapture e video_path) as [cap|msg]; [|done].
  destruct (cap_frame_count cap =? 0); [done|].
  destruct (max_frames =? 0); [done|].
  destruct (cap_isOpened cap).
  - apply read_loop_spec.
  - by rewrite read_loop_closed.
Qed.

(** C5, as the code has it.  When the sampler yields no frame,
    [VideoAnalyzer.analyze] returns at once, without any remote call, the
    verdict with is_deepfake false, confidence_score 0, the analysis
    "Could not extract frames from video", no indicators and a frame
    analysis of 0 total and 0 suspicious frames; this verdict has no
    [error] key, and the facade adds none. *)
Theorem C5_no_frames_verdict_without_error
    (e : env) (video_path : string) (max_frames : Z) (w : world) :
  (VideoAnalyzer._extract_frames e video_path max_frames w).1 = [] →
  let out := VideoAnalyzer.analyze e video_path max_frames w in
  out.1 = VideoAnalyzer.no_frames_result ∧
  out.1 !! "error" = None ∧
  out.1 !! "frame_analysis"
    = Some (PDict (<["total_frames" := PInt 0]> (<["suspicious_frames" := PInt 0]> ∅))) ∧
  calls out.2 = calls w ∧
  (MediaHandler.validate_video e video_path = true →
   let facade := DeepfakeDetector.analyze_video e video_path max_frames w in
   facade.1 !! "error" = None ∧ calls facade.2 = calls w).
Proof.
  intros Hnone out.
  assert (Hout : out = (VideoAnalyzer.no_frames_result,
                        (VideoAnalyzer._extract_frames e video_path max_frames w).2)).
  { unfold out, VideoAnalyzer.analyze.
    destruct (VideoAnalyzer._extract_frames e video_path max_frames w) as [frames w0].
    simpl in Hnone. by subst frames. }
  assert (Hcalls : calls out.2 = calls w)
    by (rewrite Hout; apply extract_frames_calls).
  split; [by rewrite Hout|]. split; [by rewrite Hout|].
  split; [by rewrite Hout|]. split; [exact Hcalls|].
  intros Hvalid facade. unfold facade, DeepfakeDetector.analyze_video.
  rewrite Hvalid. simpl. fold out.
  rewrite Hout. simpl. split; [by rewrite stamped_lookup|].
  apply extract_frames_calls.
Qed.

Lemma C5_no_frames_witness :
  (VideoAnalyzer.analyze Scenario.empty_clip "clip.mp4" 10 Scenario.start).1 !! "error"
  = None.
Proof.
  refine (proj1 (proj2 (C5_no_frames_verdict_without_error
                          Scenario.empty_clip "clip.mp4" 10 Scenario.start _))).
  vm_compute. reflexivity.
Defined.

(** C5 fails on the [error] key: a video that validates but reports zero
    frames gives no sampled frame, and the verdict that comes back has no
    [error] key. *)
Lemma C5_error_not_set_counterexample :
  MediaHandler.validate_video Scenario.empty_clip "clip.mp4" = true ∧
  (VideoAnalyzer._extract_frames Scenario.empty_clip "clip.mp4" 10 Scenario.start).1 = [] ∧
  ¬ is_Some ((DeepfakeDetector.analyze_video Scenario.empty_clip "clip.mp4" 10
                Scenario.start).1 !! "error").
Proof.
  split; [vm_compute; reflexivity|]. split; [vm_compute; reflexivity|].
  assert (H : (DeepfakeDetector.analyze_video Scenario.empty_clip "clip.mp4" 10
                 Scenario.start).1 !! "error" = None) by (vm_compute; reflexivity).
  rewrite H. by intros [x Hx].
Qed.

(** ** Temporary frame files *)

(** A frame whose analysis raises keeps its file: the [except] clause only
    appends an entry. *)
Lemma failed_frame_keeps_file (e : env) (total idx : nat) (frame_path : string)
    (st : VideoAnalyzer.loop_state) (msg : string) :
  Image_open e frame_path = Raised msg
  ∨ (Image_open e frame_path = Returned tt ∧
     generate_content e (length (calls (VideoAnalyzer.loop_world st)))
       (Request (FramePrompt (Z.of_nat idx + 1) (Z.of_nat total)) (Some frame_path))
     = Raised msg) →
  files (VideoAnalyzer.loop_world (VideoAnalyzer.analyze_frame e total idx frame_path st))
  = files (VideoAnalyzer.loop_world st).
Proof.
  unfold VideoAnalyzer.analyze_frame, generate.
  intros [-> | [-> ->]]; reflexivity.
Qed.

(** A frame whose analysis returns has its file removed. *)
Lemma analysed_frame_is_unlinked (e : env) (total idx : nat) (frame_path : string)
    (st : VideoAnalyzer.loop_state) (text : string) :
  Image_open e frame_path = Returned tt →
  generate_content e (length (calls (VideoAnalyzer.loop_world st)))
    (Request (FramePrompt (Z.of_nat idx + 1) (Z.of_nat total)) (Some frame_path))
  = Returned text →
  frame_path ∉
    files (VideoAnalyzer.loop_world (VideoAnalyzer.analyze_frame e total idx frame_path st)).
Proof.
  unfold VideoAnalyzer.analyze_frame, generate, os_unlink.
  intros -> ->. simpl. case_decide as Hin; simpl; [|exact Hin].
  rewrite elem_of_difference, elem_of_singleton. intros [_ Hne]. by apply Hne.
Qed.

(** C6 fails in the code: three frames are sampled, the remote call for the
    second one raises, and after the analysis the file of that frame is
    still on disk while the other two are gone. *)
Theorem C6_failed_frame_file_is_left_behind :
  let sampled := VideoAnalyzer._extract_frames Scenario.flaky "clip.mp4" 3 Scenario.start in
  let out := VideoAnalyzer.analyze Scenario.flaky "clip.mp4" 3 Scenario.start in
  sampled.1 = ["/tmp/frame0.jpg"; "/tmp/frame1.jpg"; "/tmp/frame2.jpg"] ∧
  files out.2 = {["/tmp/frame1.jpg"]} ∧
  "/tmp/frame1.jpg" ∈ files out.2 ∧
  out.1 !! "error" = None.
Proof.
  assert (Hfiles : files (VideoAnalyzer.analyze Scenario.flaky "clip.mp4" 3
                            Scenario.start).2 = {["/tmp/frame1.jpg"]})
    by (vm_compute; reflexivity).
  cbn zeta. split; [vm_compute; reflexivity|]. split; [exact Hfiles|].
  split; [rewrite Hfiles; by apply elem_of_singleton | vm_compute; reflexivity].
Qed.

(** ** Batches *)

Lemma batch_loop_for_each (e : env) (media_type : string) (paths : list string) :
  ∀ (results : list (gmap string pyval)) (w : world),
  DeepfakeDetector.batch_loop e media_type paths results w
  = (results ++ (for_each (DeepfakeDetector.analyze_one e media_type) paths w).1,
     (for_each (DeepfakeDetector.analyze_one e media_type) paths w).2).
Proof.
  induction paths as [|p paths IH]; intros results w; simpl.
  - by rewrite app_nil_r.
  - destruct (DeepfakeDetector.analyze_one e media_type p w) as [r w1].
    rewrite IH.
    destruct (for_each (DeepfakeDetector.analyze_one e media_type) paths w1) as [rs w2].
    simpl. by rewrite <- app_assoc.
Qed.

Lemma for_each_ext (f g : string → world → gmap string pyval * world)
    (paths : list string) :
  (∀ p w, f p w = g p w) → ∀ w, for_each f paths w = for_each g paths w.
Proof.
  intros Hfg. induction paths as [|p paths IH]; intros w; simpl; [done|].
  rewrite Hfg. destruct (g p w) as [r w1]. by rewrite IH.
Qed.

Lemma for_each_length (f : string → world → gmap string pyval * world)
    (paths : list string) :
  ∀ w, length (for_each f paths w).1 = length paths.
Proof.
  induction paths as [|p paths IH]; intros w; simpl; [done|].
  destruct (f p w) as [r w1]. specialize (IH w1).
  destruct (for_each f paths w1) as [rs w2]. simpl in *. by rewrite IH.
Qed.

(** C10. Whatever [media_type] is, [batch_analyze] returns one result per
    path, in the order of the paths; and when [media_type] is neither
    'auto' nor 'image', whatever else it is, every path is given to
    [analyze_video]. *)
Theorem C10_other_media_types_go_to_video
    (e : env) (paths : list string) (media_type : string) (w : world) :
  DeepfakeDetector.batch_analyze e paths media_type w
  = for_each (DeepfakeDetector.analyze_one e media_type) paths w ∧
  length (DeepfakeDetector.batch_analyze e paths media_type w).1 = length paths ∧
  (media_type ≠ "auto" → media_type ≠ "image" →
   DeepfakeDetector.batch_analyze e paths media_type w
   = for_each (fun p => DeepfakeDetector.analyze_video e p 10) paths w).
Proof.
  unfold DeepfakeDetector.batch_analyze. rewrite batch_loop_for_each. simpl.
  rewrite <- surjective_pairing.
  split; [reflexivity|]. split; [apply for_each_length|].
  intros Hauto Himage.
  apply for_each_ext. intros p w'. unfold DeepfakeDetector.analyze_one.
  apply String.eqb_neq in Hauto, Himage. by rewrite Hauto, Himage.
Qed.

Lemma C10_other_media_types_witness :
  DeepfakeDetector.batch_analyze Scenario.absent ["a.png"; "b.mp4"] "movie" Scenario.start
  = for_each (fun p => DeepfakeDetector.analyze_video Scenario.absent p 10)
             ["a.png"; "b.mp4"] Scenario.start.
Proof.
  refine (proj2 (proj2 (C10_other_media_types_go_to_video
                   Scenario.absent ["a.png"; "b.mp4"] "movie" Scenario.start)) _ _);
    discriminate.
Defined.

(** * Further properties *)

(** ** The fallback verdict *)

Lemma setdefault_present k v (d : gmap string pyval) :
  is_Some (d !! k) → setdefault k v d = d.
Proof. intros [x Hx]. unfold setdefault. by rewrite Hx. Qed.

Lemma image_heuristic_complete (text : string) :
  ImageAnalyzer.ensure_fields text (PDict (ImageAnalyzer._parse_text_response text))
  = Returned (ImageAnalyzer._parse_text_response text).
Proof.
  unfold ImageAnalyzer.ensure_fields. by f_equal.
Qed.

(** Where [extract_result] does not take the JSON path. *)
Lemma extract_result_fallback (e : env) (text : string) :
  PyStr.find "{" text = -1
  ∨ PyStr.rfind "}" text < PyStr.find "{" text
  ∨ json_loads e (json_span text) = None →
  ImageAnalyzer.extract_result e text = PDict (ImageAnalyzer._parse_text_response text).
Proof.
  unfold ImageAnalyzer.extract_result. fold (json_span text).
  intros [H|[H|H]].
  - rewrite H. reflexivity.
  - destruct (negb _); [|reflexivity].
    destruct (Z.gtb_spec (PyStr.rfind "}" text + 1) (PyStr.find "{" text));
      [lia | reflexivity].
  - rewrite H. by destruct (_ && _).
Qed.

(** X1. When the reply has no [{], or no [}] after the first [{], or the
    span between them is not valid JSON, image analysis returns exactly
    the heuristic reading of the reply: the five defaults add nothing and
    no [error] key appears. *)
Theorem fallback_verdict_is_the_heuristic_reading
    (e : env) (w : world) (image_path text : string) :
  Image_open e image_path = Returned tt →
  generate_content e (length (calls w)) (Request ImagePrompt (Some image_path))
    = Returned text →
  PyStr.find "{" text = -1
  ∨ PyStr.rfind "}" text < PyStr.find "{" text
  ∨ json_loads e (json_span text) = None →
  (ImageAnalyzer.analyze e image_path w).1 = ImageAnalyzer._parse_text_response text
  ∧ (ImageAnalyzer.analyze e image_path w).1 !! "error" = None
  ∧ (ImageAnalyzer.analyze e image_path w).1 !! "analysis" = Some (PStr text).
Proof.
  intros Hopen Hreply Hfall.
  assert (H : (ImageAnalyzer.analyze e image_path w).1
              = ImageAnalyzer._parse_text_response text).
  { unfold ImageAnalyzer.analyze, generate. rewrite Hopen, Hreply.
    rewrite (extract_result_fallback e text Hfall).
    by rewrite image_heuristic_complete. }
  rewrite H. split; [done|].
  unfold ImageAnalyzer._parse_text_response. by simplify_map_eq.
Qed.

Lemma fallback_verdict_witness :
  (ImageAnalyzer.analyze Scenario.calm "face.png" Scenario.start).1
  = ImageAnalyzer._parse_text_response "The face looks natural.".
Proof.
  refine (proj1 (fallback_verdict_is_the_heuristic_reading
                   Scenario.calm Scenario.start "face.png"
                   "The face looks natural." _ _ _)).
  - reflexivity.
  - reflexivity.
  - left. vm_compute. reflexivity.
Defined.

(** ** What an analysis does to the world *)

(** The worlds image analysis can leave behind. *)
Lemma image_analyze_world (e : env) (image_path : string) (w : world) :
  (ImageAnalyzer.analyze e image_path w).2 = w
  ∨ (ImageAnalyzer.analyze e image_path w).2
    = World (files w) (tmp_created w) (imwrites w)
            (calls w ++ [Request ImagePrompt (Some image_path)]).
Proof.
  unfold ImageAnalyzer.analyze, generate.
  destruct (Image_open e image_path); [|by left].
  destruct (generate_content e _ _); [|by right].
  destruct (ImageAnalyzer.ensure_fields _ _); by right.
Qed.

(** X2. [analyze_image] never creates or deletes a file and makes at most
    one remote call, whose image is the analysed path; it makes none when
    validation fails, and exactly one when validation passes and the image
    opens. *)
Theorem image_analysis_makes_at_most_one_call
    (e : env) (image_path : string) (w : world) :
  let w' := (DeepfakeDetector.analyze_image e image_path w).2 in
  files w' = files w ∧ tmp_created w' = tmp_created w ∧ imwrites w' = imwrites w ∧
  (calls w' = calls w
   ∨ calls w' = calls w ++ [Request ImagePrompt (Some image_path)]) ∧
  (MediaHandler.validate_image e image_path = false → w' = w) ∧
  (MediaHandler.validate_image e image_path = true →
   calls w' = calls w ++ [Request ImagePrompt (Some image_path)]).
Proof.
  unfold DeepfakeDetector.analyze_image.
  destruct (MediaHandler.validate_image e image_path) eqn:Hvalid; simpl.
  - pose proof (image_analyze_world e image_path w) as Hw.
    assert (Hopen : Image_open e image_path = Returned tt).
    { unfold MediaHandler.validate_image in Hvalid.
      destruct (negb (os_path_exists e image_path)); [done|].
      destruct (negb (MediaHandler.is_image image_path)); [done|].
      by destruct (Image_open e image_path) as [[]|]. }
    assert (Hcalls : calls (ImageAnalyzer.analyze e image_path w).2
                     = calls w ++ [Request ImagePrompt (Some image_path)]).
    { unfold ImageAnalyzer.analyze, generate. rewrite Hopen.
      destruct (generate_content e _ _); [|done].
      by destruct (ImageAnalyzer.ensure_fields _ _). }
    destruct (ImageAnalyzer.analyze e image_path w) as [r w1]. simpl in *.
    destruct Hw as [-> | ->]; simpl; repeat split; auto; done.
  - repeat split; auto; done.
Qed.

Lemma image_analysis_call_witness :
  calls (DeepfakeDetector.analyze_image Scenario.absent "face.png" Scenario.start).2 = [].
Proof.
  pose proof (image_analysis_makes_at_most_one_call
                Scenario.absent "face.png" Scenario.start) as H.
  cbn zeta in H. destruct H as (_ & _ & _ & _ & Hinvalid & _).
  rewrite Hinvalid; reflexivity.
Defined.

(** ** The per-frame loop *)

(** The four ways one iteration can go: the image does not open; the
    remote call raises; the frame is analysed and its file removed; the
    frame is analysed and removing its file raises. *)
Lemma analyze_frame_cases (e : env) (total idx : nat) (p : string)
    (st : VideoAnalyzer.loop_state) :
  let w := VideoAnalyzer.loop_world st in
  let rq := Request (FramePrompt (Z.of_nat idx + 1) (Z.of_nat total)) (Some p) in
  let called := World (files w) (tmp_created w) (imwrites w) (calls w ++ [rq]) in
  let st' := VideoAnalyzer.analyze_frame e total idx p st in
  (∃ msg, Image_open e p = Raised msg ∧
     st' = VideoAnalyzer.LoopState
             (VideoAnalyzer.frame_results st ++ [VideoAnalyzer.frame_failure idx msg])
             (VideoAnalyzer.suspicious_count st) w)
  ∨ (∃ msg, generate_content e (length (calls w)) rq = Raised msg ∧
     st' = VideoAnalyzer.LoopState
             (VideoAnalyzer.frame_results st ++ [VideoAnalyzer.frame_failure idx msg])
             (VideoAnalyzer.suspicious_count st) called)
  ∨ (∃ text b,
     generate_content e (length (calls w)) rq = Returned text ∧
     b = PyStr.any_in VideoAnalyzer.FRAME_KEYWORDS (PyStr.lower text) ∧
     p ∈ files w ∧
     st' = VideoAnalyzer.LoopState
             (VideoAnalyzer.frame_results st ++
              [VideoAnalyzer.frame_entry (Z.of_nat idx + 1) b (PyStr.slice text 0 200)])
             (if b then VideoAnalyzer.suspicious_count st + 1
              else VideoAnalyzer.suspicious_count st)
             (World (files w ∖ {[p]}) (tmp_created w) (imwrites w) (calls w ++ [rq])))
  ∨ (∃ text b msg,
     generate_content e (length (calls w)) rq = Returned text ∧
     b = PyStr.any_in VideoAnalyzer.FRAME_KEYWORDS (PyStr.lower text) ∧
     (p ∉ files w) ∧
     st' = VideoAnalyzer.LoopState
             (VideoAnalyzer.frame_results st ++
              [VideoAnalyzer.frame_entry (Z.of_nat idx + 1) b (PyStr.slice text 0 200);
               VideoAnalyzer.frame_failure idx msg])
             (if b then VideoAnalyzer.suspicious_count st + 1
              else VideoAnalyzer.suspicious_count st)
             called).
Proof.
  intros w rq called st'. unfold st', VideoAnalyzer.analyze_frame, generate, os_unlink.
  fold w. fold rq.
  destruct (Image_open e p) as [[]|msg]; [|left; by exists msg].
  right. destruct (generate_content e (length (calls w)) rq) as [text|msg] eqn:Hreply;
    [|left; by exists msg].
  right. cbn [files tmp_created imwrites calls]. case_decide as Hin.
  - left. exists text, (PyStr.any_in VideoAnalyzer.FRAME_KEYWORDS (PyStr.lower text)).
    done.
  - right. eexists text, _, _. repeat split; try done. by rewrite <- app_assoc.
Qed.

Lemma frame_loop_rel (e : env) (total : nat)
    (R : nat → list string → VideoAnalyzer.loop_state → VideoAnalyzer.loop_state → Prop) :
  (∀ idx st, R idx [] st st) →
  (∀ idx p frames st st',
     R (S idx) frames (VideoAnalyzer.analyze_frame e total idx p st) st' →
     R idx (p :: frames) st st') →
  ∀ frames idx st, R idx frames st (VideoAnalyzer.frame_loop e total idx frames st).
Proof.
  intros Hnil Hcons. induction frames as [|p frames IH]; intros idx st; simpl.
  - apply Hnil.
  - apply Hcons, IH.
Qed.

Lemma flagged_entry (k : Z) (b : bool) (note : string) :
  flagged (VideoAnalyzer.frame_entry k b note) = b.
Proof. by destruct b. Qed.

Lemma length_substring_le (n m : nat) (s : string) :
  (String.length (String.substring n m s) <= m)%nat.
Proof.
  revert n m. induction s as [|c s IH]; intros [|n] [|m]; simpl; try lia.
  - specialize (IH 0%nat m). lia.
  - specialize (IH n 0%nat). lia.
  - specialize (IH n (S m)). lia.
Qed.

Lemma frame_entry_ok_weaken (lo hi lo' hi' : Z) (entry : pyval) :
  lo' <= lo → hi <= hi' → frame_entry_ok lo hi entry → frame_entry_ok lo' hi' entry.
Proof.
  intros Hlo Hhi (k & b & note & -> & Hk & Hnote).
  exists k, b, note. repeat split; try done; lia.
Qed.

Lemma frame_failure_ok (idx : nat) (msg : string) :
  frame_entry_ok (Z.of_nat idx) (Z.of_nat idx + 1) (VideoAnalyzer.frame_failure idx msg).
Proof.
  eexists _, false, _. split; [reflexivity|]. split; [lia|]. right. eauto.
Qed.

Lemma frame_success_ok (idx : nat) (b : bool) (text : string) :
  frame_entry_ok (Z.of_nat idx) (Z.of_nat idx + 1)
    (VideoAnalyzer.frame_entry (Z.of_nat idx + 1) b (PyStr.slice text 0 200)).
Proof.
  eexists _, b, _. split; [reflexivity|]. split; [lia|]. left.
  unfold PyStr.slice. apply length_substring_le.
Qed.

(** What the loop appends: at least one well-formed entry per frame, and
    the counter grows by the number of entries flagged suspicious. *)
Lemma frame_loop_results (e : env) (total : nat) (frames : list string)
    (idx : nat) (st : VideoAnalyzer.loop_state) :
  let st' := VideoAnalyzer.frame_loop e total idx frames st in
  ∃ new,
    VideoAnalyzer.frame_results st' = VideoAnalyzer.frame_results st ++ new ∧
    VideoAnalyzer.suspicious_count st'
      = VideoAnalyzer.suspicious_count st
        + Z.of_nat (length (filter (fun x => flagged x = true) new)) ∧
    Forall (frame_entry_ok (Z.of_nat idx) (Z.of_nat idx + Z.of_nat (length frames))) new ∧
    (length frames <= length new)%nat.
Proof.
  cbn zeta.
  refine (frame_loop_rel e total
    (fun idx frames st st' => ∃ new,
       VideoAnalyzer.frame_results st' = VideoAnalyzer.frame_results st ++ new ∧
       VideoAnalyzer.suspicious_count st'
         = VideoAnalyzer.suspicious_count st
           + Z.of_nat (length (filter (fun x => flagged x = true) new)) ∧
       Forall (frame_entry_ok (Z.of_nat idx)
                 (Z.of_nat idx + Z.of_nat (length frames))) new ∧
       (length frames <= length new)%nat) _ _ frames idx st);
    clear frames idx st.
  - intros idx st. exists []. rewrite app_nil_r. simpl. repeat split; [lia|constructor|lia].
  - intros idx p frames st st' (new & Hres & Hcount & Hok & Hlen).
    assert (Hweak : Forall (frame_entry_ok (Z.of_nat idx)
                              (Z.of_nat idx + Z.of_nat (length (p :: frames)))) new).
    { eapply Forall_impl; [exact Hok|]. intros x.
      apply frame_entry_ok_weaken; simpl; lia. }
    destruct (analyze_frame_cases e total idx p st)
      as [(msg & _ & Hst)|[(msg & _ & Hst)|[(text & b & _ & _ & _ & Hst)
                                           |(text & b & msg & _ & _ & _ & Hst)]]];
      rewrite Hst in Hres, Hcount; cbn [VideoAnalyzer.frame_results
        VideoAnalyzer.suspicious_count] in Hres, Hcount;
      rewrite <- app_assoc in Hres; eexists; (split; [exact Hres|]).
    + split; [|split].
      * rewrite Hcount. cbn [app]. rewrite filter_cons_False; [done|].
        unfold VideoAnalyzer.frame_failure. by rewrite flagged_entry.
      * constructor; [|exact Hweak].
        eapply frame_entry_ok_weaken; [| |apply frame_failure_ok]; simpl; lia.
      * simpl. lia.
    + split; [|split].
      * rewrite Hcount. cbn [app]. rewrite filter_cons_False; [done|].
        unfold VideoAnalyzer.frame_failure. by rewrite flagged_entry.
      * constructor; [|exact Hweak].
        eapply frame_entry_ok_weaken; [| |apply frame_failure_ok]; simpl; lia.
      * simpl. lia.
    + split; [|split].
      * rewrite Hcount. cbn [app]. destruct b.
        -- rewrite filter_cons_True by apply flagged_entry. simpl. lia.
        -- rewrite filter_cons_False; [done|]. by rewrite flagged_entry.
      * constructor; [|exact Hweak].
        eapply frame_entry_ok_weaken; [| |apply frame_success_ok]; simpl; lia.
      * simpl. lia.
    + split; [|split].
      * rewrite Hcount. cbn [app].
        destruct b;
          [rewrite filter_cons_True by apply flagged_entry
          |rewrite filter_cons_False by (by rewrite flagged_entry)];
          (rewrite filter_cons_False
             by (unfold VideoAnalyzer.frame_failure; by rewrite flagged_entry));
          simpl; lia.
      * constructor; [|constructor; [|exact Hweak]].
        -- eapply frame_entry_ok_weaken; [| |apply frame_success_ok]; simpl; lia.
        -- eapply frame_entry_ok_weaken; [| |apply frame_failure_ok]; simpl; lia.
      * simpl. lia.
Qed.

(** What one iteration does to the world: at most one remote call, which
    shows the frame, and at most the frame's own file removed. *)
Lemma analyze_frame_world (e : env) (total idx : nat) (p : string)
    (st : VideoAnalyzer.loop_state) :
  let w := VideoAnalyzer.loop_world st in
  let w' := VideoAnalyzer.loop_world (VideoAnalyzer.analyze_frame e total idx p st) in
  let rq := Request (FramePrompt (Z.of_nat idx + 1) (Z.of_nat total)) (Some p) in
  (calls w' = calls w ∨ calls w' = calls w ++ [rq]) ∧
  tmp_created w' = tmp_created w ∧ imwrites w' = imwrites w ∧
  (files w' = files w ∨ files w' = files w ∖ {[p]}) ∧
  (always_answers e → calls w' = calls w ++ [rq] ∧ files w' = files w ∖ {[p]}).
Proof.
  cbn zeta.
  destruct (analyze_frame_cases e total idx p st)
    as [(msg & Hopen & Hst)|[(msg & Hgen & Hst)|[(text & b & _ & _ & Hin & Hst)
                                               |(text & b & msg & _ & _ & Hin & Hst)]]];
    rewrite Hst; cbn [VideoAnalyzer.loop_world files tmp_created imwrites calls].
  - split; [by left|]. split; [done|]. split; [done|]. split; [by left|].
    intros [Hall _]. rewrite Hall in Hopen. discriminate.
  - split; [by right|]. split; [done|]. split; [done|]. split; [by left|].
    intros [_ Hall]. destruct (Hall (length (calls (VideoAnalyzer.loop_world st)))
      (Request (FramePrompt (Z.of_nat idx + 1) (Z.of_nat total)) (Some p))) as [t Ht].
    rewrite Ht in Hgen. discriminate.
  - split; [by right|]. split; [done|]. split; [done|]. split; [by right|]. done.
  - split; [by right|]. split; [done|]. split; [done|]. split; [by left|].
    intros _. split; [done|]. apply set_eq. intros x.
    rewrite elem_of_difference, elem_of_singleton.
    split; [|tauto]. intros Hx. split; [done|]. intros ->. done.
Qed.

Lemma frame_request_ok_weaken (total : Z) (frames frames' : list string)
    (lo hi lo' hi' : Z) (rq : request) :
  (∀ p, p ∈ frames → p ∈ frames') → lo' <= lo → hi <= hi' →
  frame_request_ok total frames lo hi rq → frame_request_ok total frames' lo' hi' rq.
Proof.
  intros Hsub Hlo Hhi (k & p & -> & Hp & Hk).
  exists k, p. repeat split; auto; lia.
Qed.

(** What the loop does to the world. *)
Lemma frame_loop_world (e : env) (total : nat) (frames : list string)
    (idx : nat) (st : VideoAnalyzer.loop_state) :
  let w := VideoAnalyzer.loop_world st in
  let w' := VideoAnalyzer.loop_world (VideoAnalyzer.frame_loop e total idx frames st) in
  (∃ reqs,
     calls w' = calls w ++ reqs ∧ (length reqs <= length frames)%nat ∧
     Forall (frame_request_ok (Z.of_nat total) frames (Z.of_nat idx)
               (Z.of_nat idx + Z.of_nat (length frames))) reqs ∧
     (always_answers e → length reqs = length frames)) ∧
  tmp_created w' = tmp_created w ∧ imwrites w' = imwrites w ∧
  files w' ⊆ files w ∧
  files w ∖ list_to_set frames ⊆ files w' ∧
  (always_answers e → files w' = files w ∖ list_to_set frames).
Proof.
  cbn zeta.
  refine (frame_loop_rel e total
    (fun idx frames st st' =>
       (∃ reqs,
          calls (VideoAnalyzer.loop_world st')
            = calls (VideoAnalyzer.loop_world st) ++ reqs ∧
          (length reqs <= length frames)%nat ∧
          Forall (frame_request_ok (Z.of_nat total) frames (Z.of_nat idx)
                    (Z.of_nat idx + Z.of_nat (length frames))) reqs ∧
          (always_answers e → length reqs = length frames)) ∧
       tmp_created (VideoAnalyzer.loop_world st')
         = tmp_created (VideoAnalyzer.loop_world st) ∧
       imwrites (VideoAnalyzer.loop_world st') = imwrites (VideoAnalyzer.loop_world st) ∧
       files (VideoAnalyzer.loop_world st') ⊆ files (VideoAnalyzer.loop_world st) ∧
       files (VideoAnalyzer.loop_world st) ∖ list_to_set frames
         ⊆ files (VideoAnalyzer.loop_world st') ∧
       (always_answers e →
        files (VideoAnalyzer.loop_world st')
          = files (VideoAnalyzer.loop_world st) ∖ list_to_set frames))
    _ _ frames idx st); clear frames idx st.
  - intros idx st. split; [exists []; rewrite app_nil_r; repeat split; auto|].
    repeat split; auto.
    + intros x. rewrite elem_of_difference. tauto.
    + intros _. apply set_eq. intros x.
      rewrite elem_of_difference, list_to_set_nil. split; [|tauto].
      intros Hx. split; [done|]. apply not_elem_of_empty.
  - intros idx p frames st st'
      ((reqs & Hcalls & Hlen & Hreqs & Hall) & Htmp & Hwr & Hsub & Hkeep & Hclean).
    destruct (analyze_frame_world e total idx p st)
      as (Hc1 & Ht1 & Hw1 & Hf1 & Ha1).
    set (w := VideoAnalyzer.loop_world st) in *.
    set (w1 := VideoAnalyzer.loop_world (VideoAnalyzer.analyze_frame e total idx p st)) in *.
    set (w' := VideoAnalyzer.loop_world st') in *.
    assert (Hreqs' : Forall (frame_request_ok (Z.of_nat total) (p :: frames)
                               (Z.of_nat idx)
                               (Z.of_nat idx + Z.of_nat (length (p :: frames)))) reqs).
    { eapply Forall_impl; [exact Hreqs|]. intros rq.
      apply frame_request_ok_weaken; simpl; try lia.
      intros f Hf. by apply elem_of_cons; right. }
    split; [|split; [congruence|split; [congruence|split; [|split]]]].
    + destruct Hc1 as [Hc1|Hc1].
      * exists reqs. rewrite Hcalls, Hc1. repeat split; auto; [simpl; lia|].
        intros Hans. destruct (Ha1 Hans) as [Hc _]. rewrite Hc in Hc1.
        apply (f_equal length) in Hc1. rewrite length_app in Hc1. simpl in Hc1. lia.
      * eexists (_ :: reqs). rewrite Hcalls, Hc1, <- app_assoc.
        split; [reflexivity|]. split; [simpl; lia|]. split.
        -- constructor; [|exact Hreqs'].
           eexists _, p. split; [reflexivity|].
           split; [by apply elem_of_cons; left | simpl; lia].
        -- intros Hans. simpl. by rewrite (Hall Hans).
    + intros x Hx. apply Hsub in Hx.
      destruct Hf1 as [Hf1|Hf1]; rewrite Hf1 in Hx; [done|].
      by apply elem_of_difference in Hx as [Hx _].
    + intros x Hx. apply Hkeep.
      apply elem_of_difference in Hx as [Hx Hnot].
      rewrite list_to_set_cons, elem_of_union, elem_of_singleton in Hnot.
      apply elem_of_difference. split; [|tauto].
      destruct Hf1 as [Hf1|Hf1]; rewrite Hf1; [done|].
      apply elem_of_difference. split; [done|]. rewrite elem_of_singleton. tauto.
    + intros Hans. destruct (Ha1 Hans) as [_ Hfiles].
      rewrite (Hclean Hans), Hfiles. apply set_eq. intros x.
      rewrite !elem_of_difference, list_to_set_cons, elem_of_union. tauto.
Qed.

(** With distinct frame files that are all on disk, no removal fails and
    the loop appends exactly one entry per frame, numbered in order. *)
Lemma frame_loop_one_entry_each (e : env) (total : nat) (frames : list string)
    (idx : nat) (st : VideoAnalyzer.loop_state) :
  NoDup frames →
  (∀ f, f ∈ frames → f ∈ files (VideoAnalyzer.loop_world st)) →
  ∃ new,
    VideoAnalyzer.frame_results (VideoAnalyzer.frame_loop e total idx frames st)
      = VideoAnalyzer.frame_results st ++ new ∧
    entry_field "frame_number" <$> new
      = (fun k => Some (PInt k)) <$> seqZ (Z.of_nat idx + 1) (Z.of_nat (length frames)).
Proof.
  revert idx st. induction frames as [|p frames IH]; intros idx st Hnd Hin; simpl.
  - exists []. by rewrite app_nil_r.
  - apply NoDup_cons in Hnd as [Hp Hnd].
    assert (Hrest : ∀ f, f ∈ frames →
              f ∈ files (VideoAnalyzer.loop_world
                           (VideoAnalyzer.analyze_frame e total idx p st))).
    { intros f Hf.
      destruct (analyze_frame_world e total idx p st) as (_ & _ & _ & [Hfl|Hfl] & _);
        rewrite Hfl.
      - apply Hin. by apply elem_of_cons; right.
      - apply elem_of_difference. split; [apply Hin; by apply elem_of_cons; right|].
        rewrite elem_of_singleton. intros ->. done. }
    destruct (IH (S idx) _ Hnd Hrest) as (new & Hres & Hnum).
    rewrite seqZ_cons by lia.
    replace (Z.pred (Z.of_nat (S (length frames)))) with (Z.of_nat (length frames)) by lia.
    replace (Z.succ (Z.of_nat idx + 1)) with (Z.of_nat (S idx) + 1) by lia.
    destruct (analyze_frame_cases e total idx p st)
      as [(msg & _ & Hst)|[(msg & _ & Hst)|[(text & b & _ & _ & _ & Hst)
                                           |(text & b & msg & _ & _ & Hout & Hst)]]].
    + rewrite Hst in Hres |- *. cbn [VideoAnalyzer.frame_results] in Hres.
      rewrite <- app_assoc in Hres. eexists. split; [exact Hres|].
      cbn [app fmap list_fmap]. fold (@fmap list _ _ _ (entry_field "frame_number") new).
      by rewrite Hnum.
    + rewrite Hst in Hres |- *. cbn [VideoAnalyzer.frame_results] in Hres.
      rewrite <- app_assoc in Hres. eexists. split; [exact Hres|].
      cbn [app fmap list_fmap]. fold (@fmap list _ _ _ (entry_field "frame_number") new).
      by rewrite Hnum.
    + rewrite Hst in Hres |- *. cbn [VideoAnalyzer.frame_results] in Hres.
      rewrite <- app_assoc in Hres. eexists. split; [exact Hres|].
      cbn [app fmap list_fmap]. fold (@fmap list _ _ _ (entry_field "frame_number") new).
      by rewrite Hnum.
    + exfalso. apply Hout, Hin. by apply elem_of_cons; left.
Qed.

(** ** The sampler and the disk *)

Lemma gset_union_nil (X : gset string) : X ∪ list_to_set [] = X.
Proof. simpl. apply (right_id_L ∅ (∪)). Qed.

(** Every name the reading loop returns is the name of a file it made. *)
Lemma read_loop_files (e : env) (interval max_frames : Z) (opened : bool)
    (remaining : nat) :
  ∀ (frame_count extracted : Z) (frames : list string) (w : world),
  let out := VideoAnalyzer.read_loop e interval max_frames opened remaining
               frame_count extracted frames w in
  ∃ names,
    out.1 = frames ++ names ∧
    files out.2 = files w ∪ list_to_set names ∧
    tmp_created out.2 = (tmp_created w + length names)%nat.
Proof.
  induction remaining as [|remaining IH]; intros frame_count extracted frames w.
  - exists []. rewrite app_nil_r, gset_union_nil. simpl.
    destruct (_ && _); simpl; repeat split; lia.
  - cbn zeta. cbn [VideoAnalyzer.read_loop].
    destruct (_ && _).
    + destruct (frame_count mod interval =? 0).
      * edestruct IH as (names & H1 & H2 & H3).
        eexists (_ :: names).
        rewrite H1, H2, H3. cbn [files tmp_created].
        rewrite <- app_assoc. split; [reflexivity|]. split; [|simpl; lia].
        apply set_eq. intros x.
        rewrite list_to_set_cons, !elem_of_union. tauto.
      * apply IH.
    + exists []. rewrite app_nil_r, gset_union_nil. simpl. repeat split; lia.
Qed.

Lemma extract_frames_files (e : env) (video_path : string) (max_frames : Z) (w : world) :
  let out := VideoAnalyzer._extract_frames e video_path max_frames w in
  files out.2 = files w ∪ list_to_set out.1 ∧
  tmp_created out.2 = (tmp_created w + length out.1)%nat.
Proof.
  cbn zeta. unfold VideoAnalyzer._extract_frames.
  assert (Hnil : files w = files w ∪ list_to_set (@nil string))
    by (by rewrite gset_union_nil).
  destruct (VideoCapture e video_path) as [cap|msg];
    [|cbn [fst snd length]; split; [done|lia]].
  destruct (cap_frame_count cap =? 0); [cbn [fst snd length]; split; [done|lia]|].
  destruct (max_frames =? 0); [cbn [fst snd length]; split; [done|lia]|].
  edestruct (read_loop_files e (Z.max 1 (cap_frame_count cap / max_frames)) max_frames
               (cap_isOpened cap) (cap_readable cap) 0 0 [] w) as (names & H1 & H2 & H3).
  rewrite H1, H2, H3. done.
Qed.

Lemma extract_frames_length (e : env) (video_path : string) (max_frames : Z) (w : world) :
  Z.of_nat (length (VideoAnalyzer._extract_frames e video_path max_frames w).1)
  <= Z.max 0 max_frames.
Proof.
  unfold VideoAnalyzer._extract_frames.
  destruct (VideoCapture e video_path) as [cap|msg]; [|simpl; lia].
  destruct (cap_frame_count cap =? 0); [simpl; lia|].
  destruct (max_frames =? 0); [simpl; lia|].
  destruct (cap_isOpened cap).
  - destruct (read_loop_spec e (Z.max 1 (cap_frame_count cap / max_frames))
                max_frames (cap_readable cap) 0 0 [] w) as (H1 & _).
    rewrite H1. simpl. rewrite length_fmap, length_seq, length_take. lia.
  - rewrite read_loop_closed. simpl. lia.
Qed.

(** ** The whole video analysis *)

(** The run of [VideoAnalyzer.analyze] in terms of its sampler and loop. *)
Lemma video_analyze_run (e : env) (video_path : string) (max_frames : Z) (w : world) :
  let sampled := VideoAnalyzer._extract_frames e video_path max_frames w in
  let frames := sampled.1 in
  let n := Z.of_nat (length frames) in
  let st := VideoAnalyzer.frame_loop e (length frames) 0 frames
              (VideoAnalyzer.LoopState [] 0 sampled.2) in
  let lw := VideoAnalyzer.loop_world st in
  let out := VideoAnalyzer.analyze e video_path max_frames w in
  (frames = [] ∧ out = (VideoAnalyzer.no_frames_result, sampled.2))
  ∨ (frames ≠ [] ∧
     out.2 = World (files lw) (tmp_created lw) (imwrites lw)
               (calls lw ++ [Request (OverallPrompt (VideoAnalyzer.suspicious_count st) n)
                                     None]) ∧
     ((∃ msg, out.1 = VideoAnalyzer.error_result msg)
      ∨ out.1 !! "frame_analysis"
        = Some (PDict (<["total_frames" := PInt n]>
                      (<["suspicious_frames" := PInt (VideoAnalyzer.suspicious_count st)]>
                      (<["frame_details" := PList (VideoAnalyzer.frame_results st)]> ∅)))))).
Proof.
  cbn zeta. unfold VideoAnalyzer.analyze.
  destruct (VideoAnalyzer._extract_frames e video_path max_frames w) as [frames w0].
  cbn [fst snd].
  destruct frames as [|f frames]; [by left|]. right. split; [done|].
  set (st := VideoAnalyzer.frame_loop e _ 0 (f :: frames) _).
  unfold generate.
  destruct (generate_content e _ _) as [text|msg]; cbn [fst snd];
    [|split; [done|left; by exists msg]].
  destruct (VideoAnalyzer.extract_result e text _ _) as [| | | | | |d];
    try (cbn [VideoAnalyzer.ensure_fields fst snd]; split; [done|left; by eexists]).
  cbn [VideoAnalyzer.ensure_fields fst snd]. split; [done|]. right.
  rewrite !lookup_setdefault. by rewrite lookup_insert_eq.
Qed.

Lemma frame_analysis_of_failures :
  VideoAnalyzer.no_frames_result !! "frame_analysis" = Some VideoAnalyzer.no_frame_analysis
  ∧ ∀ msg, VideoAnalyzer.error_result msg !! "frame_analysis"
           = Some VideoAnalyzer.no_frame_analysis.
Proof. split; [|intros msg]; reflexivity. Qed.

(** X3. Whatever happens, the verdict of video analysis carries a
    [frame_analysis] of its own making, never the remote model's, in which
    0 <= suspicious_frames <= total_frames <= max(0, max_frames). *)
Theorem frame_summary_is_consistent
    (e : env) (video_path : string) (max_frames : Z) (w : world) :
  ∃ (fa : gmap string pyval) (n s : Z),
    (VideoAnalyzer.analyze e video_path max_frames w).1 !! "frame_analysis"
      = Some (PDict fa) ∧
    fa !! "total_frames" = Some (PInt n) ∧
    fa !! "suspicious_frames" = Some (PInt s) ∧
    0 <= s <= n ∧ n <= Z.max 0 max_frames.
Proof.
  pose proof (extract_frames_length e video_path max_frames w) as Hlen.
  destruct frame_analysis_of_failures as [Hnone Herr].
  destruct (video_analyze_run e video_path max_frames w)
    as [[_ Hout]|(_ & _ & [[msg Hout]|Hout])].
  - rewrite Hout. eexists _, 0, 0. split; [exact Hnone|].
    repeat split; try done; lia.
  - rewrite Hout. eexists _, 0, 0. split; [apply Herr|].
    repeat split; try done; lia.
  - eexists _, _, _. split; [exact Hout|].
    split; [by simplify_map_eq|]. split; [by simplify_map_eq|].
    pose proof (frame_loop_count e
      (length (VideoAnalyzer._extract_frames e video_path max_frames w).1)
      (VideoAnalyzer._extract_frames e video_path max_frames w).1 0
      (VideoAnalyzer.LoopState [] 0
         (VideoAnalyzer._extract_frames e video_path max_frames w).2)) as Hc.
    simpl in Hc. lia.
Qed.

(** X4. When the verdict lists frame details, [suspicious_frames] is the
    number of listed entries flagged suspicious, every entry is numbered
    between 1 and [total_frames], and each note is either a reply cut at
    200 characters or an error report on an entry that is not flagged;
    there is at least one entry per sampled frame. *)
Theorem frame_details_account_for_the_count
    (e : env) (video_path : string) (max_frames : Z) (w : world)
    (fa : gmap string pyval) (details : list pyval) :
  (VideoAnalyzer.analyze e video_path max_frames w).1 !! "frame_analysis"
    = Some (PDict fa) →
  fa !! "frame_details" = Some (PList details) →
  ∃ n, fa !! "total_frames" = Some (PInt n) ∧
       fa !! "suspicious_frames"
         = Some (PInt (Z.of_nat (length (filter (fun x => flagged x = true) details)))) ∧
       Forall (frame_entry_ok 0 n) details ∧
       n <= Z.of_nat (length details).
Proof.
  intros Hfa Hdetails.
  destruct frame_analysis_of_failures as [Hnone Herr].
  destruct (video_analyze_run e video_path max_frames w)
    as [[_ Hout]|(_ & _ & [[msg Hout]|Hout])].
  - rewrite Hout in Hfa. cbn [fst] in Hfa. rewrite Hnone in Hfa.
    injection Hfa as <-. discriminate Hdetails.
  - rewrite Hout, Herr in Hfa. injection Hfa as <-. discriminate Hdetails.
  - rewrite Hout in Hfa. injection Hfa as <-.
    rewrite lookup_insert_ne, lookup_insert_ne, lookup_insert_eq in Hdetails by done.
    injection Hdetails as <-.
    destruct (frame_loop_results e
      (length (VideoAnalyzer._extract_frames e video_path max_frames w).1)
      (VideoAnalyzer._extract_frames e video_path max_frames w).1 0
      (VideoAnalyzer.LoopState [] 0
         (VideoAnalyzer._extract_frames e video_path max_frames w).2))
      as (new & Hres & Hcount & Hok & Hlen).
    simpl in Hres, Hcount, Hok. subst new.
    eexists. split; [by simplify_map_eq|]. split; [|split].
    + rewrite lookup_insert_ne, lookup_insert_eq by done. by rewrite Hcount.
    + exact Hok.
    + lia.
Qed.

Lemma frame_details_witness :
  ∃ n, Scenario.alarming_summary !! "total_frames" = Some (PInt n) ∧
       Scenario.alarming_summary !! "suspicious_frames"
         = Some (PInt (Z.of_nat (length (filter (fun x => flagged x = true)
                                           Scenario.alarming_details)))) ∧
       Forall (frame_entry_ok 0 n) Scenario.alarming_details ∧
       n <= Z.of_nat (length Scenario.alarming_details).
Proof.
  apply (frame_details_account_for_the_count Scenario.alarming "clip.mp4" 3
           Scenario.start);
    vm_compute; reflexivity.
Defined.

(** X5. When the sampled frame files have distinct names, the frame
    details hold exactly one entry per sampled frame, numbered 1, 2, ...
    in sampling order, whether the frames could be analysed or not. *)
Theorem one_entry_per_sampled_frame
    (e : env) (video_path : string) (max_frames : Z) (w : world)
    (fa : gmap string pyval) (details : list pyval) :
  NoDup (VideoAnalyzer._extract_frames e video_path max_frames w).1 →
  (VideoAnalyzer.analyze e video_path max_frames w).1 !! "frame_analysis"
    = Some (PDict fa) →
  fa !! "frame_details" = Some (PList details) →
  entry_field "frame_number" <$> details
  = (fun k => Some (PInt k)) <$>
      seqZ 1 (Z.of_nat (length (VideoAnalyzer._extract_frames e video_path max_frames w).1)).
Proof.
  intros Hnd Hfa Hdetails.
  destruct frame_analysis_of_failures as [Hnone Herr].
  destruct (video_analyze_run e video_path max_frames w)
    as [[_ Hout]|(_ & _ & [[msg Hout]|Hout])].
  - rewrite Hout in Hfa. cbn [fst] in Hfa. rewrite Hnone in Hfa.
    injection Hfa as <-. discriminate Hdetails.
  - rewrite Hout, Herr in Hfa. injection Hfa as <-. discriminate Hdetails.
  - rewrite Hout in Hfa. injection Hfa as <-.
    rewrite lookup_insert_ne, lookup_insert_ne, lookup_insert_eq in Hdetails by done.
    injection Hdetails as <-.
    destruct (extract_frames_files e video_path max_frames w) as [Hfiles _].
    edestruct (frame_loop_one_entry_each e
      (length (VideoAnalyzer._extract_frames e video_path max_frames w).1)
      (VideoAnalyzer._extract_frames e video_path max_frames w).1 0
      (VideoAnalyzer.LoopState [] 0
         (VideoAnalyzer._extract_frames e video_path max_frames w).2) Hnd)
      as (new & Hres & Hnum).
    + intros f Hf. cbn [VideoAnalyzer.loop_world]. rewrite Hfiles.
      apply elem_of_union. right. by apply elem_of_list_to_set.
    + simpl in Hres. rewrite Hres. exact Hnum.
Qed.

Lemma one_entry_per_sampled_frame_witness :
  entry_field "frame_number" <$> Scenario.alarming_details
  = [Some (PInt 1); Some (PInt 2); Some (PInt 3)].
Proof.
  refine (eq_trans (one_entry_per_sampled_frame Scenario.alarming "clip.mp4" 3
                      Scenario.start Scenario.alarming_summary
                      Scenario.alarming_details _ _ _) _).
  - apply (bool_decide_unpack _). vm_compute. exact I.
  - vm_compute. reflexivity.
  - vm_compute. reflexivity.
  - vm_compute. reflexivity.
Defined.

(** X6. Video analysis touches no file but its own frame files: what was
    on disk and is not a sampled name stays, nothing but sampled names is
    added, and the number of temporary files created is the number of
    sampled frames.  Its remote calls are, in order, at most one frame
    prompt per sampled frame, each showing one of the frame files, and then
    exactly one overall prompt carrying the suspicious count and the number
    of frames; with no frame sampled there is no call at all. *)
Theorem video_analysis_footprint
    (e : env) (video_path : string) (max_frames : Z) (w : world) :
  let frames := (VideoAnalyzer._extract_frames e video_path max_frames w).1 in
  let n := Z.of_nat (length frames) in
  let w' := (VideoAnalyzer.analyze e video_path max_frames w).2 in
  files w ∖ list_to_set frames ⊆ files w' ∧
  files w' ⊆ files w ∪ list_to_set frames ∧
  tmp_created w' = (tmp_created w + length frames)%nat ∧
  ((frames = [] ∧ calls w' = calls w)
   ∨ (frames ≠ [] ∧
      ∃ reqs s,
        calls w' = calls w ++ reqs ++ [Request (OverallPrompt s n) None] ∧
        (length reqs <= length frames)%nat ∧
        Forall (frame_request_ok n frames 0 n) reqs ∧
        0 <= s <= n)).
Proof.
  cbn zeta.
  destruct (extract_frames_files e video_path max_frames w) as [Hfiles Htmp].
  pose proof (extract_frames_calls e video_path max_frames w) as Hcalls.
  destruct (video_analyze_run e video_path max_frames w)
    as [[Hnil Hout]|(Hne & Hout & _)].
  - rewrite Hout. cbn [snd]. rewrite Hfiles, Htmp, Hcalls.
    split; [|split; [done|split; [done|left; by split]]].
    intros x Hx. apply elem_of_difference in Hx as [Hx _].
    apply elem_of_union. by left.
  - rewrite Hout. cbn [files tmp_created calls].
    set (frames := (VideoAnalyzer._extract_frames e video_path max_frames w).1) in *.
    set (w0 := (VideoAnalyzer._extract_frames e video_path max_frames w).2) in *.
    destruct (frame_loop_world e (length frames) frames 0
                (VideoAnalyzer.LoopState [] 0 w0))
      as ((reqs & Hreqs & Hlen & Hok & _) & Ht & _ & Hsub & Hkeep & _).
    cbn [VideoAnalyzer.loop_world] in *.
    pose proof (frame_loop_count e (length frames) frames 0
                  (VideoAnalyzer.LoopState [] 0 w0)) as Hcount.
    cbn [VideoAnalyzer.suspicious_count] in Hcount.
    split; [|split; [|split; [congruence|]]].
    + intros x Hx. apply Hkeep. apply elem_of_difference in Hx as [Hx Hnot].
      apply elem_of_difference. split; [|done].
      rewrite Hfiles. apply elem_of_union. by left.
    + intros x Hx. apply Hsub in Hx. by rewrite Hfiles in Hx.
    + right. split; [done|]. eexists reqs, _.
      rewrite Hreqs, Hcalls, <- app_assoc. split; [reflexivity|].
      split; [done|]. split; [exact Hok | lia].
Qed.

(** X7. When every image opens and every remote call answers, video
    analysis leaves none of its frame files behind: the disk holds what it
    held before, less the sampled names; and it makes exactly one call per
    frame and one overall call. *)
Theorem answered_run_removes_every_frame_file
    (e : env) (video_path : string) (max_frames : Z) (w : world) :
  always_answers e →
  let frames := (VideoAnalyzer._extract_frames e video_path max_frames w).1 in
  let w' := (VideoAnalyzer.analyze e video_path max_frames w).2 in
  files w' = files w ∖ list_to_set frames ∧
  (∀ f, f ∈ frames → f ∉ files w') ∧
  (frames ≠ [] → length (calls w') = (length (calls w) + length frames + 1)%nat).
Proof.
  intros Hans. cbn zeta.
  destruct (extract_frames_files e video_path max_frames w) as [Hfiles _].
  pose proof (extract_frames_calls e video_path max_frames w) as Hcalls.
  set (frames := (VideoAnalyzer._extract_frames e video_path max_frames w).1) in *.
  set (w0 := (VideoAnalyzer._extract_frames e video_path max_frames w).2) in *.
  assert (Hw' : files (VideoAnalyzer.analyze e video_path max_frames w).2
                = files w ∖ list_to_set frames
                ∧ (frames ≠ [] →
                   length (calls (VideoAnalyzer.analyze e video_path max_frames w).2)
                   = (length (calls w) + length frames + 1)%nat)).
  { destruct (video_analyze_run e video_path max_frames w)
      as [[Hnil Hout]|(Hne & Hout & _)]; fold frames in Hnil || fold frames in Hne.
    - rewrite Hout. cbn [snd]. fold w0. rewrite Hfiles, Hnil.
      split; [|done]. apply set_eq. intros x.
      rewrite elem_of_difference, elem_of_union, list_to_set_nil.
      pose proof (not_elem_of_empty (C := gset string) x). tauto.
    - rewrite Hout. cbn [files calls]. fold frames. fold w0.
      destruct (frame_loop_world e (length frames) frames 0
                  (VideoAnalyzer.LoopState [] 0 w0))
        as ((reqs & Hreqs & _ & _ & Hexact) & _ & _ & _ & _ & Hclean).
      cbn [VideoAnalyzer.loop_world] in *.
      rewrite (Hclean Hans), Hfiles. split.
      + apply set_eq. intros x.
        rewrite !elem_of_difference, elem_of_union. tauto.
      + intros _. rewrite !length_app, Hreqs, length_app, (Hexact Hans), Hcalls.
        simpl. lia. }
  destruct Hw' as [Hf Hc]. split; [exact Hf|]. split; [|exact Hc].
  intros f Hin. rewrite Hf, elem_of_difference, elem_of_list_to_set. tauto.
Qed.

Lemma answered_run_witness :
  files (VideoAnalyzer.analyze Scenario.calm "clip.mp4" 3 Scenario.start).2
  = files Scenario.start
    ∖ list_to_set (VideoAnalyzer._extract_frames Scenario.calm "clip.mp4" 3
                     Scenario.start).1.
Proof.
  refine (proj1 (answered_run_removes_every_frame_file
                   Scenario.calm "clip.mp4" 3 Scenario.start _)).
  split; [intros p; reflexivity | intros n rq; eexists; reflexivity].
Defined.

(** ** Batches and the remote model *)

Lemma image_calls_bound (e : env) (p : string) (w : world) :
  (length (calls (DeepfakeDetector.analyze_image e p w).2) <= length (calls w) + 1)%nat.
Proof.
  unfold DeepfakeDetector.analyze_image.
  destruct (negb _); simpl; [lia|].
  pose proof (image_analyze_world e p w) as Hw.
  destruct (ImageAnalyzer.analyze e p w) as [r w1]. simpl in *.
  destruct Hw as [-> | ->]; simpl; [lia|]. rewrite length_app. simpl. lia.
Qed.

Lemma video_calls_bound (e : env) (p : string) (max_frames : Z) (w : world) :
  Z.of_nat (length (calls (DeepfakeDetector.analyze_video e p max_frames w).2))
  <= Z.of_nat (length (calls w)) + Z.max 0 max_frames + 1.
Proof.
  unfold DeepfakeDetector.analyze_video.
  destruct (negb _); simpl; [lia|].
  pose proof (extract_frames_length e p max_frames w) as Hlen.
  pose proof (extract_frames_calls e p max_frames w) as Hcalls.
  pose proof (video_analyze_run e p max_frames w) as Hrun. cbn zeta in Hrun.
  destruct (VideoAnalyzer.analyze e p max_frames w) as [r w1]. cbn [fst snd] in *.
  destruct Hrun as [[_ Hout]|(_ & Hout & _)].
  - injection Hout as _ ->. rewrite Hcalls. lia.
  - subst w1. cbn [calls].
    destruct (frame_loop_world e
      (length (VideoAnalyzer._extract_frames e p max_frames w).1)
      (VideoAnalyzer._extract_frames e p max_frames w).1 0
      (VideoAnalyzer.LoopState [] 0 (VideoAnalyzer._extract_frames e p max_frames w).2))
      as ((reqs & Hreqs & Hle & _) & _).
    cbn [VideoAnalyzer.loop_world] in Hreqs.
    rewrite Hreqs, Hcalls, !length_app. simpl. lia.
Qed.

Lemma analyze_one_calls_bound (e : env) (media_type p : string) (w : world) :
  (length (calls (DeepfakeDetector.analyze_one e media_type p w).2)
   <= length (calls w) + 11)%nat.
Proof.
  pose proof (image_calls_bound e p w).
  pose proof (video_calls_bound e p 10 w).
  unfold DeepfakeDetector.analyze_one.
  destruct (String.eqb media_type "auto").
  - destruct (MediaHandler.is_image p); [lia|].
    destruct (MediaHandler.is_video p); [lia | simpl; lia].
  - destruct (String.eqb media_type "image"); lia.
Qed.

(** X8. A batch makes at most eleven remote calls per path, whatever the
    media type and whatever the files and the replies are: one per image,
    and for a video at most ten frame prompts and one overall prompt. *)
Theorem batch_makes_at_most_eleven_calls_per_path
    (e : env) (paths : list string) (media_type : string) (w : world) :
  (length (calls (DeepfakeDetector.batch_analyze e paths media_type w).2)
   <= length (calls w) + 11 * length paths)%nat.
Proof.
  unfold DeepfakeDetector.batch_analyze. rewrite batch_loop_for_each. cbn [snd].
  revert w. induction paths as [|p paths IH]; intros w; simpl; [lia|].
  pose proof (analyze_one_calls_bound e media_type p w) as Hone.
  destruct (DeepfakeDetector.analyze_one e media_type p w) as [r w1].
  specialize (IH w1).
  destruct (for_each (DeepfakeDetector.analyze_one e media_type) paths w1) as [rs w2].
  simpl in *. lia.
Qed.

Lemma analyze_one_invalid (e : env) (media_type p : string) (w : world) :
  MediaHandler.validate_image e p = false →
  MediaHandler.validate_video e p = false →
  (DeepfakeDetector.analyze_one e media_type p w).2 = w
  ∧ is_Some ((DeepfakeDetector.analyze_one e media_type p w).1 !! "error")
  ∧ (DeepfakeDetector.analyze_one e media_type p w).1 !! "media_type" = None.
Proof.
  intros Himage Hvideo.
  unfold DeepfakeDetector.analyze_one, DeepfakeDetector.analyze_image,
    DeepfakeDetector.analyze_video.
  rewrite Himage, Hvideo. simpl.
  destruct (String.eqb media_type "auto");
    [destruct (MediaHandler.is_image p); [|destruct (MediaHandler.is_video p)]
    |destruct (String.eqb media_type "image")];
    simpl; (split; [done|]); (split; [eexists|]); by simplify_map_eq.
Qed.

(** X9. A batch whose paths all fail validation (as images and as videos)
    never reaches the remote model and leaves the world as it was; every
    entry it returns reports an error, and none is stamped with a media
    type. *)
Theorem batch_of_invalid_files_costs_nothing
    (e : env) (paths : list string) (media_type : string) (w : world) :
  (∀ p, p ∈ paths →
     MediaHandler.validate_image e p = false ∧ MediaHandler.validate_video e p = false) →
  (DeepfakeDetector.batch_analyze e paths media_type w).2 = w ∧
  length (DeepfakeDetector.batch_analyze e paths media_type w).1 = length paths ∧
  Forall (fun r => is_Some (r !! "error") ∧ r !! "media_type" = None)
         (DeepfakeDetector.batch_analyze e paths media_type w).1.
Proof.
  unfold DeepfakeDetector.batch_analyze. rewrite batch_loop_for_each. cbn [fst snd app].
  induction paths as [|p paths IH]; intros Hinvalid; simpl.
  - repeat split; constructor.
  - destruct (Hinvalid p) as [Himage Hvideo]; [by apply elem_of_cons; left|].
    destruct (analyze_one_invalid e media_type p w Himage Hvideo) as (Hw & Herr & Hmt).
    destruct (DeepfakeDetector.analyze_one e media_type p w) as [r w1].
    simpl in Hw, Herr, Hmt. subst w1.
    destruct IH as (IHw & IHlen & IHall).
    { intros q Hq. apply Hinvalid. by apply elem_of_cons; right. }
    destruct (for_each (DeepfakeDetector.analyze_one e media_type) paths w) as [rs w2].
    simpl in *. split; [done|]. split; [by rewrite IHlen|]. by constructor.
Qed.

Lemma batch_of_invalid_files_witness :
  (DeepfakeDetector.batch_analyze Scenario.absent ["a.png"; "b.mp4"; "c.txt"] "auto"
     Scenario.start).2 = Scenario.start.
Proof.
  refine (proj1 (batch_of_invalid_files_costs_nothing Scenario.absent
                   ["a.png"; "b.mp4"; "c.txt"] "auto" Scenario.start _)).
  intros p Hp. split; reflexivity.
Defined.

(** ** Which frames are sampled *)

(** For an opened capture that reports some frames, the sampler writes the
    sampled counters, in order, to the files it returns. *)
Lemma extract_frames_log (e : env) (video_path : string) (max_frames : Z) (w : world)
    (cap : capture) :
  VideoCapture e video_path = Returned cap →
  cap_isOpened cap = true → cap_frame_count cap ≠ 0 → max_frames ≠ 0 →
  let out := VideoAnalyzer._extract_frames e video_path max_frames w in
  length out.1 = length (sampled_counters cap max_frames) ∧
  imwrites out.2 = imwrites w ++ zip out.1 (sampled_counters cap max_frames).
Proof.
  intros Hcap Hopen Hcount Hmax. cbn zeta. unfold VideoAnalyzer._extract_frames.
  rewrite Hcap, Hopen.
  destruct (Z.eqb_spec (cap_frame_count cap) 0) as [|_]; [done|].
  destruct (Z.eqb_spec max_frames 0) as [|_]; [done|].
  destruct (read_loop_spec e (Z.max 1 (cap_frame_count cap / max_frames))
              max_frames (cap_readable cap) 0 0 [] w) as (H1 & H2 & _).
  rewrite Z.sub_0_r in H1, H2. fold (sampled_counters cap max_frames) in H1, H2.
  simpl in H1. rewrite H2, H1, length_fmap, length_seq. done.
Qed.

(** Among 0, ..., n-1 the multiples of [i] are 0, i, 2i, ... *)
Lemma filter_multiples (i : Z) (n : nat) :
  0 < i →
  filter (fun k => k mod i = 0) (seqZ 0 (Z.of_nat n))
  = (fun j => j * i) <$> seqZ 0 ((Z.of_nat n + i - 1) / i).
Proof.
  intros Hi. induction n as [|n IH].
  - rewrite seqZ_nil by lia.
    replace ((Z.of_nat 0 + i - 1) / i) with 0
      by (symmetry; apply Z.div_small; lia).
    by rewrite seqZ_nil by lia.
  - rewrite seqZ_S, filter_app, IH, Z.add_0_l.
    pose proof (Z.div_mod (Z.of_nat n) i ltac:(lia)) as Hdm.
    pose proof (Z.mod_pos_bound (Z.of_nat n) i Hi) as Hr.
    set (q := Z.of_nat n / i) in *. set (r := Z.of_nat n mod i) in *.
    assert (0 <= q) by (apply Z.div_pos; lia).
    destruct (decide (r = 0)) as [Hz|Hnz].
    + assert (Hq : (Z.of_nat n + i - 1) / i = q).
      { symmetry. apply (Z.div_unique _ _ _ (i - 1)); lia. }
      assert (Hq' : (Z.of_nat (S n) + i - 1) / i = q + 1).
      { symmetry. apply (Z.div_unique _ _ _ 0); lia. }
      rewrite Hq, Hq'. rewrite (seqZ_app 0 q 1) by lia. rewrite fmap_app.
      f_equal. rewrite filter_cons_True by done. rewrite filter_nil.
      rewrite seqZ_cons by lia. rewrite seqZ_nil by lia. simpl. f_equal. lia.
    + assert (Hq : (Z.of_nat n + i - 1) / i = q + 1).
      { symmetry. apply (Z.div_unique _ _ _ (r - 1)); lia. }
      assert (Hq' : (Z.of_nat (S n) + i - 1) / i = q + 1).
      { symmetry. apply (Z.div_unique _ _ _ r); lia. }
      rewrite Hq, Hq'. rewrite filter_cons_False by done.
      by rewrite filter_nil, app_nil_r.
Qed.

Lemma take_seqZ (n m len : Z) :
  0 <= n → take (Z.to_nat n) (seqZ m len) = seqZ m (Z.min n len).
Proof.
  intros Hn. unfold seqZ. rewrite <- fmap_take, take_seq. do 2 f_equal. lia.
Qed.

(** X10. When the capture is open, reports exactly the number of frames
    it can read, and that number is at least [max_frames >= 1], the sampler
    returns exactly [max_frames] files, holding the frames 0, i, 2i, ...
    for i = total_frames // max_frames. *)
Theorem honest_count_fills_the_quota
    (e : env) (video_path : string) (max_frames : Z) (w : world) (cap : capture) :
  VideoCapture e video_path = Returned cap →
  cap_isOpened cap = true →
  cap_frame_count cap = Z.of_nat (cap_readable cap) →
  1 <= max_frames <= cap_frame_count cap →
  let out := VideoAnalyzer._extract_frames e video_path max_frames w in
  let interval := cap_frame_count cap / max_frames in
  length out.1 = Z.to_nat max_frames ∧
  imwrites out.2
  = imwrites w ++ zip out.1 ((fun j => j * interval) <$> seqZ 0 max_frames).
Proof.
  intros Hcap Hopen Hhonest Hmax. cbn zeta.
  destruct (extract_frames_log e video_path max_frames w cap Hcap Hopen)
    as [Hlen Hlog]; [lia..|].
  assert (Hi : 1 <= cap_frame_count cap / max_frames)
    by (apply Z.div_le_lower_bound; lia).
  assert (Hsel : sampled_counters cap max_frames
                 = (fun j => j * (cap_frame_count cap / max_frames)) <$> seqZ 0 max_frames).
  { unfold sampled_counters. rewrite Z.max_r by lia.
    rewrite filter_multiples by lia. rewrite <- fmap_take, take_seqZ by lia.
    f_equal. f_equal. apply Z.min_l.
    apply Z.div_le_lower_bound; [lia|].
    pose proof (Z.mul_div_le (cap_frame_count cap) max_frames ltac:(lia)). nia. }
  rewrite Hlen, Hlog, Hsel. split; [|done].
  rewrite length_fmap, length_seqZ. done.
Qed.

Lemma honest_count_witness :
  imwrites (VideoAnalyzer._extract_frames Scenario.calm "clip.mp4" 4 Scenario.start).2
  = zip (VideoAnalyzer._extract_frames Scenario.calm "clip.mp4" 4 Scenario.start).1
        [0; 7; 14; 21].
Proof.
  refine (proj2 (honest_count_fills_the_quota Scenario.calm "clip.mp4" 4
                   Scenario.start (Capture true 30 30) _ _ _ _));
    try reflexivity.
  simpl. lia.
Defined.

(** X11. When the reported frame count is below twice [max_frames] (also
    when it is wrong or negative), the interval is 1: the sampler takes the
    first frames of the stream one after the other, [max_frames] of them or
    all that can be read, and nothing from the rest of the video. *)
Theorem short_counts_are_read_from_the_start
    (e : env) (video_path : string) (max_frames : Z) (w : world) (cap : capture) :
  VideoCapture e video_path = Returned cap →
  cap_isOpened cap = true →
  cap_frame_count cap ≠ 0 →
  1 <= max_frames →
  cap_frame_count cap < 2 * max_frames →
  let out := VideoAnalyzer._extract_frames e video_path max_frames w in
  let taken := Z.min max_frames (Z.of_nat (cap_readable cap)) in
  length out.1 = Z.to_nat taken ∧
  imwrites out.2 = imwrites w ++ zip out.1 (seqZ 0 taken).
Proof.
  intros Hcap Hopen Hcount Hmax Hshort. cbn zeta.
  destruct (extract_frames_log e video_path max_frames w cap Hcap Hopen)
    as [Hlen Hlog]; [lia..|].
  assert (Hi : cap_frame_count cap / max_frames <= 1).
  { assert (cap_frame_count cap / max_frames < 2); [|lia].
    apply Z.div_lt_upper_bound; lia. }
  assert (Hsel : sampled_counters cap max_frames
                 = seqZ 0 (Z.min max_frames (Z.of_nat (cap_readable cap)))).
  { unfold sampled_counters. rewrite Z.max_l by lia.
    rewrite filter_multiples by lia. rewrite <- fmap_take, take_seqZ by lia.
    replace ((Z.of_nat (cap_readable cap) + 1 - 1) / 1) with (Z.of_nat (cap_readable cap))
      by (rewrite Z.div_1_r; lia).
    rewrite <- (list_fmap_id (seqZ 0 _)) at 2.
    apply list_fmap_ext. intros _ j _. simpl. lia. }
  rewrite Hlen, Hlog, Hsel. split; [|done]. by rewrite length_seqZ.
Qed.

Lemma short_counts_witness :
  imwrites (VideoAnalyzer._extract_frames Scenario.short_clip "clip.mp4" 10
              Scenario.start).2
  = zip (VideoAnalyzer._extract_frames Scenario.short_clip "clip.mp4" 10
           Scenario.start).1
        [0; 1; 2; 3; 4; 5; 6; 7; 8; 9].
Proof.
  refine (proj2 (short_counts_are_read_from_the_start Scenario.short_clip "clip.mp4" 10
                   Scenario.start (Capture true 12 12) _ _ _ _ _));
    try reflexivity; simpl; lia.
Defined.

Lemma read_loop_full (e : env) (interval max_frames : Z) (opened : bool)
    (remaining : nat) (frame_count extracted : Z) (frames : list string) (w : world) :
  max_frames <= extracted →
  VideoAnalyzer.read_loop e interval max_frames opened remaining
    frame_count extracted frames w = (frames, w).
Proof.
  intros Hfull. destruct remaining; simpl;
    destruct (Z.ltb_spec extracted max_frames); (lia || done).
Qed.

(** X12. With [max_frames <= 0] nothing is sampled: for 0 the division
    error is swallowed, below 0 the loop is never entered.  Video analysis
    then returns the no-frames verdict at once and leaves the world
    untouched: no file, no remote call. *)
Theorem nonpositive_quota_samples_nothing
    (e : env) (video_path : string) (max_frames : Z) (w : world) :
  max_frames <= 0 →
  VideoAnalyzer._extract_frames e video_path max_frames w = ([], w) ∧
  VideoAnalyzer.analyze e video_path max_frames w = (VideoAnalyzer.no_frames_result, w).
Proof.
  intros Hmax.
  assert (H : VideoAnalyzer._extract_frames e video_path max_frames w = ([], w)).
  { unfold VideoAnalyzer._extract_frames.
    destruct (VideoCapture e video_path) as [cap|msg]; [|done].
    destruct (cap_frame_count cap =? 0); [done|].
    destruct (Z.eqb_spec max_frames 0); [done|].
    apply read_loop_full. lia. }
  split; [exact H|]. unfold VideoAnalyzer.analyze. by rewrite H.
Qed.

Lemma nonpositive_quota_witness :
  VideoAnalyzer.analyze Scenario.calm "clip.mp4" 0 Scenario.start
  = (VideoAnalyzer.no_frames_result, Scenario.start).
Proof.
  refine (proj2 (nonpositive_quota_samples_nothing Scenario.calm "clip.mp4" 0
                   Scenario.start _)).
  lia.
Defined.

(** ** Validation and extensions *)

Lemma extension_sets_disjoint :
  MediaHandler.IMAGE_EXTENSIONS ## MediaHandler.VIDEO_EXTENSIONS.
Proof. apply (bool_decide_unpack _). vm_compute. exact I. Qed.

(** X13. No path is both an image and a video by extension, so the
    automatic routing of a batch never depends on the order of its two
    tests; and a path that validates as one kind does not validate as the
    other. *)
Theorem image_and_video_extensions_exclude_each_other (e : env) (file_path : string) :
  (MediaHandler.is_image file_path = true → MediaHandler.is_video file_path = false) ∧
  (MediaHandler.validate_image e file_path = true →
   MediaHandler.validate_video e file_path = false) ∧
  (MediaHandler.validate_video e file_path = true →
   MediaHandler.validate_image e file_path = false).
Proof.
  assert (Hex : MediaHandler.is_image file_path = true →
                MediaHandler.is_video file_path = false).
  { unfold MediaHandler.is_image, MediaHandler.is_video.
    intros Hi%bool_decide_eq_true. apply bool_decide_eq_false. intros Hv.
    exact (extension_sets_disjoint _ Hi Hv). }
  split; [exact Hex|]. split.
  - unfold MediaHandler.validate_image, MediaHandler.validate_video.
    destruct (negb (os_path_exists e file_path)); [done|].
    destruct (MediaHandler.is_image file_path); [|done].
    intros _. by rewrite (Hex eq_refl).
  - unfold MediaHandler.validate_image, MediaHandler.validate_video.
    destruct (negb (os_path_exists e file_path)); [done|].
    destruct (MediaHandler.is_video file_path) eqn:Hv; [|done].
    intros _. destruct (MediaHandler.is_image file_path); [|done].
    by specialize (Hex eq_refl).
Qed.

Lemma extensions_exclusive_witness : MediaHandler.is_video "holiday.JPG" = false.
Proof.
  refine (proj1 (image_and_video_extensions_exclude_each_other Scenario.calm
                   "holiday.JPG") _).
  vm_compute. reflexivity.
Defined.

Lemma sampled_counters_nonempty (cap : capture) (max_frames : Z) :
  1 <= max_frames → (1 <= cap_readable cap)%nat →
  ∃ rest, sampled_counters cap max_frames = 0 :: rest.
Proof.
  intros Hmax Hread. unfold sampled_counters.
  rewrite seqZ_cons by lia.
  rewrite filter_cons_True by (apply Z.mod_0_l; lia).
  replace (Z.to_nat max_frames) with (S (Z.to_nat (max_frames - 1))) by lia.
  simpl. eauto.
Qed.

(** X14. For a video that passed validation and [max_frames >= 1], the
    sampler comes back empty exactly when the capture reports zero frames;
    otherwise it returns at least one file, and the first file written
    holds frame 0. *)
Theorem validated_video_yields_frames_unless_count_is_zero
    (e : env) (video_path : string) (max_frames : Z) (w : world) (cap : capture) :
  MediaHandler.validate_video e video_path = true →
  VideoCapture e video_path = Returned cap →
  1 <= max_frames →
  let out := VideoAnalyzer._extract_frames e video_path max_frames w in
  (out.1 = [] ↔ cap_frame_count cap = 0) ∧
  (cap_frame_count cap ≠ 0 →
   ∃ name names rest,
     out.1 = name :: names ∧ imwrites out.2 = imwrites w ++ (name, 0) :: rest).
Proof.
  intros Hvalid Hcap Hmax. cbn zeta.
  assert (Hopen : cap_isOpened cap = true ∧ (1 <= cap_readable cap)%nat).
  { unfold MediaHandler.validate_video in Hvalid. rewrite Hcap in Hvalid.
    destruct (negb (os_path_exists e video_path)); [done|].
    destruct (negb (MediaHandler.is_video video_path)); [done|].
    destruct (cap_isOpened cap); [|done].
    destruct (cap_readable cap); [done|]. split; [done|lia]. }
  destruct Hopen as [Hopen Hread].
  assert (Hsome : cap_frame_count cap ≠ 0 →
            ∃ name names rest,
              (VideoAnalyzer._extract_frames e video_path max_frames w).1 = name :: names ∧
              imwrites (VideoAnalyzer._extract_frames e video_path max_frames w).2
              = imwrites w ++ (name, 0) :: rest).
  { intros Hcount.
    destruct (extract_frames_log e video_path max_frames w cap Hcap Hopen Hcount)
      as [Hlen Hlog]; [lia|].
    destruct (sampled_counters_nonempty cap max_frames Hmax Hread) as [rest Hsel].
    rewrite Hsel in Hlen, Hlog.
    destruct (VideoAnalyzer._extract_frames e video_path max_frames w).1
      as [|name names]; [done|].
    exists name, names, (zip names rest). done. }
  split; [|exact Hsome]. split.
  - intros Hnil. destruct (decide (cap_frame_count cap = 0)) as [|Hne]; [done|].
    destruct (Hsome Hne) as (name & names & rest & Hout & _). congruence.
  - intros Hzero. unfold VideoAnalyzer._extract_frames. rewrite Hcap, Hzero. done.
Qed.

Lemma validated_video_witness :
  (VideoAnalyzer._extract_frames Scenario.empty_clip "clip.mp4" 10 Scenario.start).1 = []
  ↔ cap_frame_count (Capture true 0 1) = 0.
Proof.
  refine (proj1 (validated_video_yields_frames_unless_count_is_zero
                   Scenario.empty_clip "clip.mp4" 10 Scenario.start
                   (Capture true 0 1) _ _ _)).
  - vm_compute. reflexivity.
  - reflexivity.
  - lia.
Defined.

(** ** The confidence of the video fallback *)



(** ** Indicator sentences *)

Lemma find_cons_absent (c a : ascii) (s : string) :
  PyStr.find c (String a s) = -1 ↔ Ascii.eqb a c = false ∧ PyStr.find c s = -1.
Proof.
  simpl. pose proof (find_lower_bound c s).
  destruct (Ascii.eqb a c); [split; [lia|intros [? _]; done]|].
  destruct (Z.eqb_spec (PyStr.find c s) (-1)); split; try lia; tauto.
Qed.

(** No piece of a split contains the separator. *)
Lemma split_pieces_lack_separator (c : ascii) (s x : string) :
  x ∈ PyStr.split c s → PyStr.find c x = -1.
Proof.
  revert x. induction s as [|a s IH]; intros x; simpl.
  - intros ->%list_elem_of_singleton. reflexivity.
  - destruct (Ascii.eqb a c) eqn:Hac.
    + intros [->|Hx]%elem_of_cons; [reflexivity | by apply IH].
    + destruct (PyStr.split c s) as [|h t].
      * intros ->%list_elem_of_singleton. apply find_cons_absent. by split.
      * intros [->|Hx]%elem_of_cons.
        -- apply find_cons_absent. split; [done|]. apply IH. by left.
        -- apply IH. by right.
Qed.

Lemma find_lstrip (c : ascii) (s : string) :
  PyStr.find c s = -1 → PyStr.find c (PyStr.lstrip s) = -1.
Proof.
  induction s as [|a s IH]; [done|].
  intros H. cbn [PyStr.lstrip]. destruct (PyStr.is_space a); [|done].
  apply IH. by apply find_cons_absent in H as [_ H].
Qed.

Lemma find_rstrip (c : ascii) (s : string) :
  PyStr.find c s = -1 → PyStr.find c (PyStr.rstrip s) = -1.
Proof.
  induction s as [|a s IH]; [done|].
  intros [Ha Hs]%find_cons_absent. specialize (IH Hs). cbn [PyStr.rstrip].
  destruct (PyStr.rstrip s) as [|b r].
  - destruct (PyStr.is_space a); [done|]. apply find_cons_absent. by split.
  - apply find_cons_absent. by split.
Qed.

Lemma length_lstrip (s : string) :
  (String.length (PyStr.lstrip s) <= String.length s)%nat.
Proof.
  induction s as [|a s IH]; simpl; [lia|]. destruct (PyStr.is_space a); simpl; lia.
Qed.

Lemma length_rstrip (s : string) :
  (String.length (PyStr.rstrip s) <= String.length s)%nat.
Proof.
  induction s as [|a s IH]; simpl; [lia|].
  destruct (PyStr.rstrip s); [destruct (PyStr.is_space a)|]; simpl in *; lia.
Qed.

(** A string that [lstrip] leaves alone is empty or starts with a solid
    character. *)
Lemma lstrip_fixed_head (a : ascii) (s : string) :
  PyStr.lstrip (String a s) = String a s → PyStr.is_space a = false.
Proof.
  cbn [PyStr.lstrip]. destruct (PyStr.is_space a); [|done].
  intros H. pose proof (length_lstrip s) as Hl. rewrite H in Hl. simpl in Hl. lia.
Qed.

Lemma lstrip_idem (s : string) : PyStr.lstrip (PyStr.lstrip s) = PyStr.lstrip s.
Proof.
  induction s as [|a s IH]; [done|]. cbn [PyStr.lstrip].
  destruct (PyStr.is_space a) eqn:Ha; [done|]. cbn [PyStr.lstrip]. by rewrite Ha.
Qed.

Lemma rstrip_cons_kept (a b : ascii) (s r : string) :
  PyStr.rstrip s = String b r → PyStr.rstrip (String a s) = String a (String b r).
Proof. intros H. cbn [PyStr.rstrip]. by rewrite H. Qed.

Lemma rstrip_idem (s : string) : PyStr.rstrip (PyStr.rstrip s) = PyStr.rstrip s.
Proof.
  induction s as [|a s IH]; [done|].
  destruct (PyStr.rstrip s) as [|b r] eqn:Hr.
  - cbn [PyStr.rstrip]. rewrite Hr.
    destruct (PyStr.is_space a) eqn:Ha; [done|]. simpl. by rewrite Ha.
  - rewrite (rstrip_cons_kept a b s r Hr). by apply rstrip_cons_kept.
Qed.

Lemma lstrip_rstrip (s : string) :
  PyStr.lstrip s = s → PyStr.lstrip (PyStr.rstrip s) = PyStr.rstrip s.
Proof.
  destruct s as [|a s]; [done|]. intros Ha%lstrip_fixed_head.
  cbn [PyStr.rstrip]. destruct (PyStr.rstrip s); rewrite ?Ha; simpl; by rewrite Ha.
Qed.

Lemma strip_idem (s : string) : PyStr.strip (PyStr.strip s) = PyStr.strip s.
Proof.
  unfold PyStr.strip.
  rewrite (lstrip_rstrip (PyStr.lstrip s)) by apply lstrip_idem.
  apply rstrip_idem.
Qed.

Lemma is_space_lower (c : ascii) : PyStr.is_space (PyStr.chr_lower c) = PyStr.is_space c.
Proof. destruct c as [[] [] [] [] [] [] [] []]; reflexivity. Qed.

Lemma lower_lstrip (s : string) :
  PyStr.lower (PyStr.lstrip s) = PyStr.lstrip (PyStr.lower s).
Proof.
  induction s as [|a s IH]; [done|]. cbn [PyStr.lstrip PyStr.lower].
  rewrite is_space_lower. by destruct (PyStr.is_space a).
Qed.

Lemma lower_rstrip (s : string) :
  PyStr.lower (PyStr.rstrip s) = PyStr.rstrip (PyStr.lower s).
Proof.
  induction s as [|a s IH]; [done|]. cbn [PyStr.rstrip PyStr.lower].
  rewrite <- IH, is_space_lower.
  destruct (PyStr.rstrip s); [by destruct (PyStr.is_space a)|done].
Qed.

Lemma contains_unfold (k t : string) :
  PyStr.contains k t
  = String.prefix k t || match t with
                         | EmptyString => false
                         | String _ t' => PyStr.contains k t'
                         end.
Proof. by destruct t. Qed.

Lemma contains_lstrip (k t : string) :
  k ≠ EmptyString → PyStr.lstrip k = k →
  PyStr.contains k t = true → PyStr.contains k (PyStr.lstrip t) = true.
Proof.
  intros Hk Hfix. destruct k as [|k0 k]; [done|].
  apply lstrip_fixed_head in Hfix.
  induction t as [|a t IH]; [done|]. cbn [PyStr.lstrip].
  destruct (PyStr.is_space a) eqn:Ha; [|done].
  rewrite contains_unfold. cbn [String.prefix].
  destruct (ascii_dec k0 a) as [->|_]; [congruence|]. simpl. exact IH.
Qed.

Lemma rstrip_fixed_tail (a : ascii) (s : string) :
  s ≠ EmptyString → PyStr.rstrip (String a s) = String a s → PyStr.rstrip s = s.
Proof.
  intros Hs. cbn [PyStr.rstrip]. destruct (PyStr.rstrip s) as [|b r].
  - destruct (PyStr.is_space a); congruence.
  - congruence.
Qed.

Lemma prefix_rstrip (k t : string) :
  k ≠ EmptyString → PyStr.rstrip k = k →
  String.prefix k t = true → String.prefix k (PyStr.rstrip t) = true.
Proof.
  revert t. induction k as [|k0 k IH]; intros t Hk Hfix; [done|].
  destruct t as [|a t]; [done|]. cbn [String.prefix].
  destruct (ascii_dec k0 a) as [->|_]; [|done]. intros Hpre.
  cbn [PyStr.rstrip].
  destruct k as [|k1 k].
  - simpl in Hfix. destruct (PyStr.is_space a) eqn:Ha; [done|].
    destruct (PyStr.rstrip t); simpl; by destruct (ascii_dec a a).
  - assert (Hk' : PyStr.rstrip (String k1 k) = String k1 k)
      by (by apply (rstrip_fixed_tail a)).
    specialize (IH t ltac:(done) Hk' Hpre).
    destruct (PyStr.rstrip t) as [|b r]; [done|].
    cbn [String.prefix]. by destruct (ascii_dec a a).
Qed.

Lemma contains_rstrip (k t : string) :
  k ≠ EmptyString → PyStr.rstrip k = k →
  PyStr.contains k t = true → PyStr.contains k (PyStr.rstrip t) = true.
Proof.
  intros Hk Hfix. induction t as [|a t IH]; [done|].
  rewrite contains_unfold. intros [Hpre|Hin]%orb_true_iff.
  - rewrite contains_unfold. apply orb_true_iff. left. by apply prefix_rstrip.
  - specialize (IH Hin). cbn [PyStr.rstrip].
    destruct (PyStr.rstrip t) as [|b r].
    + destruct k; [done|]. discriminate IH.
    + rewrite contains_unfold. apply orb_true_iff. by right.
Qed.

Lemma mentions_strip (words : list string) (y : string) :
  (∀ k, k ∈ words → k ≠ EmptyString ∧ PyStr.lstrip k = k ∧ PyStr.rstrip k = k) →
  PyStr.any_in words (PyStr.lower y) = true →
  mentions words (PyStr.strip y).
Proof.
  intros Hsolid Hany. apply any_in_mentions in Hany as (k & Hk & Hin).
  destruct (Hsolid k Hk) as (Hne & Hl & Hr).
  exists k. split; [done|]. unfold PyStr.strip.
  rewrite lower_rstrip, lower_lstrip.
  by apply contains_rstrip, contains_lstrip.
Qed.

Lemma indicator_sentences (words : list string) (text x : string) :
  (∀ k, k ∈ words → k ≠ EmptyString ∧ PyStr.lstrip k = k ∧ PyStr.rstrip k = k) →
  x ∈ take 5 (ImageAnalyzer.extract_indicators words text) →
  PyStr.find "." x = -1 ∧ PyStr.strip x = x ∧ mentions words x.
Proof.
  intros Hsolid Hx%elem_of_take. destruct Hx as (i & Hx & _).
  apply list_elem_of_lookup_2 in Hx. unfold ImageAnalyzer.extract_indicators in Hx.
  apply list_elem_of_fmap in Hx as (y & -> & Hy).
  apply list_elem_of_filter in Hy as [Hany Hy].
  split; [|split].
  - unfold PyStr.strip. apply find_rstrip, find_lstrip.
    by apply (split_pieces_lack_separator _ text).
  - apply strip_idem.
  - by apply mentions_strip.
Qed.

Lemma image_indicator_words_solid (k : string) :
  k ∈ ImageAnalyzer.INDICATOR_KEYWORDS →
  k ≠ EmptyString ∧ PyStr.lstrip k = k ∧ PyStr.rstrip k = k.
Proof.
  intros Hk. unfold ImageAnalyzer.INDICATOR_KEYWORDS in Hk.
  repeat (apply elem_of_cons in Hk as [->|Hk]; [by repeat split|]).
  by apply elem_of_nil in Hk.
Qed.

Lemma video_indicator_words_solid (k : string) :
  k ∈ VideoAnalyzer.INDICATOR_KEYWORDS →
  k ≠ EmptyString ∧ PyStr.lstrip k = k ∧ PyStr.rstrip k = k.
Proof.
  intros Hk. unfold VideoAnalyzer.INDICATOR_KEYWORDS in Hk.
  repeat (apply elem_of_cons in Hk as [->|Hk]; [by repeat split|]).
  by apply elem_of_nil in Hk.
Qed.

(** X16. The indicators of a fallback verdict, in image mode and in video
    mode, are at most five strings; each of them has no period in it, has
    no white space at either end, and mentions one of the indicator
    keywords of its mode. *)
Theorem fallback_indicators_are_trimmed_keyword_sentences (text : string) (s n : Z) :
  (∃ l, ImageAnalyzer._parse_text_response text !! "indicators"
        = Some (PList (PStr <$> l)) ∧
        (length l <= 5)%nat ∧
        Forall (fun x => PyStr.find "." x = -1 ∧ PyStr.strip x = x
                         ∧ mentions ImageAnalyzer.INDICATOR_KEYWORDS x) l) ∧
  (∃ l, VideoAnalyzer._parse_text_response text s n !! "indicators"
        = Some (PList (PStr <$> l)) ∧
        (length l <= 5)%nat ∧
        Forall (fun x => PyStr.find "." x = -1 ∧ PyStr.strip x = x
                         ∧ mentions VideoAnalyzer.INDICATOR_KEYWORDS x) l).
Proof.
  split.
  - eexists. split; [unfold ImageAnalyzer._parse_text_response; by simplify_map_eq|].
    split; [rewrite length_take; lia|].
    apply Forall_forall. intros x Hx.
    exact (indicator_sentences _ text x image_indicator_words_solid Hx).
  - eexists. split; [unfold VideoAnalyzer._parse_text_response; by simplify_map_eq|].
    split; [rewrite length_take; lia|].
    apply Forall_forall. intros x Hx.
    exact (indicator_sentences _ text x video_indicator_words_solid Hx).
Qed.

(** ** Suffixes *)

(** Where [rfind] points: the string splits there, and the character does
    not occur after it. *)
Lemma rfind_split (c : ascii) (s : string) (i : Z) :
  PyStr.rfind c s = i → 0 <= i →
  ∃ pre post, s = pre +:+ String c post ∧ Z.of_nat (String.length pre) = i
              ∧ PyStr.rfind c post = -1.
Proof.
  revert i. induction s as [|a s IH]; intros i; simpl; [lia|].
  pose proof (rfind_lower_bound c s) as Hlow.
  destruct (Z.eqb_spec (PyStr.rfind c s) (-1)) as [Hr|Hr]; simpl.
  - destruct (Ascii.eqb_spec a c) as [->|]; [|lia].
    intros <- _. by exists EmptyString, s.
  - intros <- _. destruct (IH (PyStr.rfind c s) eq_refl ltac:(lia))
      as (pre & post & -> & Hlen & Hpost).
    exists (String a pre), post. simpl. repeat split; [lia|done].
Qed.

Lemma find_app_absent (c : ascii) (a b : string) :
  PyStr.find c (a +:+ b) = -1 → PyStr.find c b = -1.
Proof.
  induction a as [|x a IH]; [done|].
  simpl. intros H. apply IH. by apply find_cons_absent in H as [_ H].
Qed.

Lemma substring_full (s : string) : String.substring 0 (String.length s) s = s.
Proof. induction s as [|a s IH]; simpl; [done | by rewrite IH]. Qed.

Lemma last_forall {A} (P : A → Prop) (l : list A) (d : A) :
  P d → Forall P l → P (List.last l d).
Proof.
  intros Hd Hl. induction Hl as [|x l Hx Hl IH]; [done|].
  destruct l; [done | exact IH].
Qed.

Lemma path_name_has_no_slash (file_path : string) :
  PyStr.find "/" (MediaHandler.path_name file_path) = -1.
Proof.
  unfold MediaHandler.path_name. apply last_forall; [done|].
  apply Forall_forall. intros x [_ Hx]%list_elem_of_filter.
  by apply (split_pieces_lack_separator _ file_path).
Qed.

(** X17. The suffix of a path is empty, or it is the part of the last
    path component from its last dot on: a dot followed by at least one
    character, with no further dot and no slash.  It is empty when the
    component has no dot, only a leading dot, or a trailing dot, and such
    paths are neither images nor videos. *)
Theorem suffix_is_the_last_dotted_part (file_path : string) :
  (MediaHandler.path_suffix file_path = EmptyString ∧
   MediaHandler.is_image file_path = false ∧ MediaHandler.is_video file_path = false)
  ∨ ∃ stem ext,
      MediaHandler.path_name file_path = stem +:+ "." +:+ ext ∧
      MediaHandler.path_suffix file_path = "." +:+ ext ∧
      stem ≠ EmptyString ∧ ext ≠ EmptyString ∧
      PyStr.rfind "." ext = -1 ∧ PyStr.find "/" ext = -1.
Proof.
  pose proof (path_name_has_no_slash file_path) as Hslash.
  unfold MediaHandler.is_image, MediaHandler.is_video, MediaHandler.path_suffix.
  set (name := MediaHandler.path_name file_path) in *.
  destruct ((0 <? PyStr.rfind "." name)
            && (PyStr.rfind "." name <? Z.of_nat (String.length name) - 1)) eqn:Hguard.
  - right. apply andb_true_iff in Hguard as [Hpos%Z.ltb_lt Hlt%Z.ltb_lt].
    destruct (rfind_split "." name _ eq_refl ltac:(lia))
      as (stem & ext & Hname & Hlen & Hext).
    assert (Hlength : String.length name
                      = (String.length stem + S (String.length ext))%nat)
      by (rewrite Hname, length_app_str; reflexivity).
    rewrite Hlength in Hlt.
    exists stem, ext.
    split; [done|]. split; [|split; [|split; [|split]]].
    + unfold PyStr.slice. rewrite <- Hlen, Hlength, Nat2Z.id, Hname.
      rewrite substring_skip.
      replace (Z.to_nat _) with (String.length (String "." ext)) by (simpl; lia).
      apply substring_full.
    + intros ->. simpl in Hlen. lia.
    + intros ->. simpl in Hlt. lia.
    + exact Hext.
    + rewrite Hname in Hslash. apply find_app_absent in Hslash.
      by apply find_cons_absent in Hslash as [_ H].
  - left. split; [done|]. split; vm_compute; reflexivity.
Qed.

(** ** What the user is shown *)

(** X18. A verdict that reports a failure with the safe defaults is shown
    like a clean bill of health: the banner says LIKELY AUTHENTIC, the
    confidence is 0, the authenticity 100 and the risk level Low; the
    [error] key plays no part in it. *)
Theorem failure_verdicts_are_shown_as_authentic (r : gmap string pyval) :
  safe_defaults r →
  ∃ m, App.display_metrics r = Returned m ∧
       App.verdict_text m = "LIKELY AUTHENTIC" ∧
       App.risk_level m = "Low" ∧
       (App.shown_confidence m == 0)%Q ∧ (App.shown_authenticity m == 100)%Q.
Proof.
  intros (Hd & Hc & _ & _). unfold App.display_metrics. rewrite Hd, Hc. simpl.
  eexists. split; [reflexivity|]. simpl. repeat split; reflexivity.
Qed.

Lemma failure_display_witness :
  ∃ m, App.display_metrics
         (DeepfakeDetector.analyze_video Scenario.absent "clip.mp4" 10 Scenario.start).1
       = Returned m ∧
       App.verdict_text m = "LIKELY AUTHENTIC" ∧
       App.risk_level m = "Low" ∧
       (App.shown_confidence m == 0)%Q ∧ (App.shown_authenticity m == 100)%Q.
Proof.
  apply failure_verdicts_are_shown_as_authentic.
  unfold safe_defaults. repeat split; try (vm_compute; reflexivity).
  eexists. split; [vm_compute; reflexivity | discriminate].
Defined.

(** X19. A plain reply, one that mentions no classification keyword and no
    word of the three confidence families, is shown as LIKELY AUTHENTIC
    with confidence 100, authenticity 0 and risk level High. *)
Theorem plain_reply_is_shown_authentic_at_high_risk (text : string) :
  ¬ mentions ImageAnalyzer.DEEPFAKE_KEYWORDS text →
  ¬ mentions ImageAnalyzer.LIKELY_WORDS text →
  ¬ mentions ImageAnalyzer.DEFINITELY_WORDS text →
  ¬ mentions ImageAnalyzer.POSSIBLY_WORDS text →
  ∃ m, App.display_metrics (ImageAnalyzer._parse_text_response text) = Returned m ∧
       App.verdict_text m = "LIKELY AUTHENTIC" ∧
       App.risk_level m = "High" ∧
       (App.shown_confidence m == 100)%Q ∧ (App.shown_authenticity m == 0)%Q.
Proof.
  intros Hkw Hl Hd Hp. apply any_in_silent in Hkw, Hl, Hd, Hp.
  destruct (image_heuristic_fields text) as (Hb & Hs & _).
  unfold App.display_metrics.
  rewrite Hb, Hs, estimate_confidence_last_match, Hkw, Hl, Hd, Hp. simpl.
  eexists. split; [reflexivity|]. simpl. repeat split; reflexivity.
Qed.

Lemma plain_reply_display_witness :
  ∃ m, App.display_metrics (ImageAnalyzer._parse_text_response "The photo seems genuine.")
       = Returned m ∧
       App.verdict_text m = "LIKELY AUTHENTIC" ∧
       App.risk_level m = "High" ∧
       (App.shown_confidence m == 100)%Q ∧ (App.shown_authenticity m == 0)%Q.
Proof.
  apply plain_reply_is_shown_authentic_at_high_risk;
    apply any_in_silent; vm_compute; reflexivity.
Defined.

(** ** The overall verdict of a video *)





(** X21. In every other case (no brace span, or a span that is not valid
    JSON) the verdict of video analysis is the heuristic reading of the
    overall reply with [frame_analysis] added: no default is used and no
    [error] key appears. *)
Theorem video_fallback_verdict_is_the_heuristic_reading
    (e : env) (overall_text : string) (s n : Z) (frs : list pyval) :
  PyStr.find "{" overall_text = -1
  ∨ PyStr.rfind "}" overall_text < PyStr.find "{" overall_text
  ∨ json_loads e (json_span overall_text) = None →
  VideoAnalyzer.ensure_fields overall_text s n frs
    (VideoAnalyzer.extract_result e overall_text s n)
  = Returned
      (<["frame_analysis" :=
           PDict (<["total_frames" := PInt n]>
                 (<["suspicious_frames" := PInt s]>
                 (<["frame_details" := PList frs]> ∅)))]>
       (VideoAnalyzer._parse_text_response overall_text s n)).
Proof.
  intros Hfall.
  assert (Hex : VideoAnalyzer.extract_result e overall_text s n
                = PDict (VideoAnalyzer._parse_text_response overall_text s n)).
  { unfold VideoAnalyzer.extract_result. fold (json_span overall_text).
    destruct Hfall as [H|[H|H]].
    - rewrite H. reflexivity.
    - destruct (negb _); [|reflexivity].
      destruct (Z.gtb_spec (PyStr.rfind "}" overall_text + 1)
                           (PyStr.find "{" overall_text)); [lia | reflexivity].
    - rewrite H. by destruct (_ && _). }
  rewrite Hex. unfold VideoAnalyzer.ensure_fields. by f_equal.
Qed.

Lemma video_fallback_verdict_witness :
  VideoAnalyzer.ensure_fields "Nothing unusual." 1 10 []
    (VideoAnalyzer.extract_result Scenario.calm "Nothing unusual." 1 10)
  = Returned
      (<["frame_analysis" :=
           PDict (<["total_frames" := PInt 10]>
                 (<["suspicious_frames" := PInt 1]>
                 (<["frame_details" := PList []]> ∅)))]>
       (VideoAnalyzer._parse_text_response "Nothing unusual." 1 10)).
Proof.
  apply video_fallback_verdict_is_the_heuristic_reading.
  left. vm_compute. reflexivity.
Defined.

(** ** Stamps *)

(** X22. The facade stamps [media_type] and [file_path] on a verdict
    exactly when validation passed, and then with its own values whatever
    the remote model wrote under these keys; a verdict for a file that
    failed validation carries neither. *)
Theorem verdicts_are_stamped_iff_validated
    (e : env) (path : string) (max_frames : Z) (w : world) :
  let image := (DeepfakeDetector.analyze_image e path w).1 in
  let video := (DeepfakeDetector.analyze_video e path max_frames w).1 in
  image !! "media_type"
    = (if MediaHandler.validate_image e path then Some (PStr "image") else None) ∧
  image !! "file_path"
    = (if MediaHandler.validate_image e path then Some (PStr path) else None) ∧
  video !! "media_type"
    = (if MediaHandler.validate_video e path then Some (PStr "video") else None) ∧
  video !! "file_path"
    = (if MediaHandler.validate_video e path then Some (PStr path) else None).
Proof.
  cbn zeta. unfold DeepfakeDetector.analyze_image, DeepfakeDetector.analyze_video.
  destruct (MediaHandler.validate_image e path),
           (MediaHandler.validate_video e path); simpl;
    destruct (ImageAnalyzer.analyze e path w),
             (VideoAnalyzer.analyze e path max_frames w); simpl;
    repeat split; by simplify_map_eq.
Qed.
